(** * Icon generation script of Neon Pulse Flappy Bird

    A shallow embedding of [scripts/generate_icons.py] and the properties
    its specification states about it.

    The script is straight-line Python over three collaborators, and the
    embedding keeps each of them as an interface:

    - Python's [float] arithmetic ([PyFloat]), with two instances: IEEE 754
      binary64, which is what CPython computes with, and exact rationals.
      What the specification says of a run of the generator is proved in
      binary64: a run needs the renderer at the twenty sizes of its tables,
      and there every float conversion is checked by computation.  What it
      says for every size or every ratio is proved over the rationals,
      where the formulas of the specification hold as written; rounding is
      outside that instance (see [gradient_rounding]).
    - Pillow ([Pillow]): which pixels a primitive covers, the Gaussian
      blur and the per-pixel alpha-over.  Image allocation, the in-place
      drawing discipline and the size checks of [alpha_composite] are
      written out.
    - the operating system ([OS]): [os.makedirs] and the file write behind
      [Image.save], each free to succeed or to raise.

    Exceptions are values ([Exc]); the effectful part threads the state of
    the outside world and the trace of completed effects ([IO]).  [print]
    is taken not to raise. *)

From Stdlib Require Import ZArith QArith String Ascii List Lia.
From Stdlib Require Floats.
From stdpp Require Import gmap strings pretty.

Open Scope string_scope.
Open Scope list_scope.
Open Scope Z_scope.

(** ** Exceptions *)

(** The exception classes the script can meet.  [KeyboardInterrupt] and
    [SystemExit] derive from [BaseException] only: [except Exception] does
    not catch them. *)
Inductive ExcClass : Type :=
  | ValueError | OverflowError | ZeroDivisionError | KeyError
  | OSError | MemoryError | KeyboardInterrupt | SystemExit.

Record PyExc : Type := mkExc { exc_class : ExcClass; exc_str : string }.

Definition is_Exception (e : PyExc) : bool :=
  match exc_class e with
  | KeyboardInterrupt | SystemExit => false
  | _ => true
  end.

Inductive Exc (A : Type) : Type :=
  | Ok (a : A)
  | Raise (e : PyExc).
Arguments Ok {A} a.
Arguments Raise {A} e.

Definition ebind {A B : Type} (c : Exc A) (k : A -> Exc B) : Exc B :=
  match c with
  | Ok a => k a
  | Raise e => Raise e
  end.

Declare Scope exc_scope.
Delimit Scope exc_scope with exc.
Notation "x <- c ;; k" := (ebind c (fun x => k))
  (at level 100, c at next level, right associativity) : exc_scope.

(** [for x in xs: body], with the loop state passed along; the first
    exception leaves the loop. *)
Fixpoint for_each {A S : Type} (xs : list A) (body : A -> S -> Exc S) (s : S) : Exc S :=
  match xs with
  | [] => Ok s
  | x :: rest => (s' <- body x s ;; for_each rest body s')%exc
  end.

(** [range(n)]: empty for [n <= 0]. *)
Definition range (n : Z) : list Z := map Z.of_nat (seq 0 (Z.to_nat n)).

(** ** Colours *)

Definition RGB : Type := Z * Z * Z.

(** The palette, a [dict] from names to hex strings. *)
Definition COLORS : gmap string string :=
  list_to_map
    [ ("background", "#0B0B1F");
      ("gradient", "#1A0B2E");
      ("primary_neon", "#00FFFF");
      ("secondary_neon", "#FF1493");
      ("accent_neon", "#39FF14") ].

(** [COLORS[name]] *)
Definition COLORS_get (name : string) : Exc string :=
  match COLORS !! name with
  | Some v => Ok v
  | None => Raise (mkExc KeyError name)
  end.

(** [str.lstrip('#')]: every leading ['#'] goes. *)
Fixpoint lstrip_hash (s : string) : string :=
  match s with
  | String c rest => if Ascii.eqb c "#" then lstrip_hash rest else s
  | EmptyString => s
  end.

Definition hex_digit (c : ascii) : option Z :=
  let n := Z.of_nat (nat_of_ascii c) in
  if (48 <=? n) && (n <=? 57) then Some (n - 48)
  else if (65 <=? n) && (n <=? 70) then Some (n - 55)
  else if (97 <=? n) && (n <=? 102) then Some (n - 87)
  else None.

Fixpoint hex_digits (acc : Z) (s : string) : option Z :=
  match s with
  | EmptyString => Some acc
  | String c rest =>
      match hex_digit c with
      | Some d => hex_digits (16 * acc + d) rest
      | None => None
      end
  end.

Definition is_space (c : ascii) : bool :=
  let n := nat_of_ascii c in
  ((9 <=? n)%nat && (n <=? 13)%nat) || (n =? 32)%nat.

Fixpoint lstrip_space (s : string) : string :=
  match s with
  | String c rest => if is_space c then lstrip_space rest else s
  | EmptyString => s
  end.

Fixpoint rstrip_space (s : string) : string :=
  match s with
  | String c rest =>
      match rstrip_space rest with
      | EmptyString => if is_space c then EmptyString else String c EmptyString
      | r => String c r
      end
  | EmptyString => s
  end.

(** [int(s, 16)] on the slices [hex_to_rgb] passes, which hold at most two
    characters: surrounding white space is dropped, one sign is read, and
    what is left must be one or more hexadecimal digits.  (The [0x] prefix
    and the [_] separator of longer literals need three characters.) *)
Definition int16 (s : string) : Exc Z :=
  let bad := Raise (mkExc ValueError ("invalid literal for int() with base 16: '" +:+ s +:+ "'")) in
  let body := rstrip_space (lstrip_space s) in
  let signed (neg : bool) (digits : string) :=
    match digits with
    | EmptyString => bad
    | _ => match hex_digits 0 digits with
           | Some z => Ok (if neg then - z else z)
           | None => bad
           end
    end in
  match body with
  | String c rest =>
      if Ascii.eqb c "-" then signed true rest
      else if Ascii.eqb c "+" then signed false rest
      else signed false body
  | EmptyString => bad
  end.

(** [hex_color[i:i+2]] *)
Definition slice2 (s : string) (i : nat) : string := substring i 2 s.

Definition hex_to_rgb (hex_color : string) : Exc RGB :=
  let hex_color := lstrip_hash hex_color in
  (r <- int16 (slice2 hex_color 0) ;;
   g <- int16 (slice2 hex_color 2) ;;
   b <- int16 (slice2 hex_color 4) ;;
   Ok (r, g, b))%exc.

(** ** Python floats *)

(** The float operations of the script.  [of_int] is the conversion Python
    applies to an [int] operand of mixed arithmetic, [decimal m k] the
    literal [m / 10^k], [to_int] is [int(x)] (which raises on a NaN or an
    infinity), [fgt x y] is [x > y]. *)
Class PyFloat (F : Type) : Type := {
  of_int : Z -> F;
  decimal : Z -> nat -> F;
  fadd : F -> F -> F;
  fsub : F -> F -> F;
  fmul : F -> F -> F;
  fdiv : F -> F -> F;
  to_int : F -> Exc Z;
  fgt : F -> F -> bool
}.

Declare Scope pyfloat_scope.
Delimit Scope pyfloat_scope with py.
Infix "+" := fadd : pyfloat_scope.
Infix "-" := fsub : pyfloat_scope.
Infix "*" := fmul : pyfloat_scope.
Infix ">?" := fgt : pyfloat_scope.

Section Blend.
Context {F : Type} `{PyFloat F}.

(** [y / size] on two ints *)
Definition truediv (a b : Z) : Exc F :=
  if b =? 0 then Raise (mkExc ZeroDivisionError "division by zero")
  else Ok (fdiv (of_int a) (of_int b)).

(** [int(rgb1[i] * (1 - ratio) + rgb2[i] * ratio)] *)
Definition blend_channel (c1 c2 : Z) (ratio : F) : Exc Z :=
  to_int (of_int c1 * (of_int 1 - ratio) + of_int c2 * ratio)%py.

Definition blend_colors (color1 color2 : string) (ratio : F) : Exc RGB :=
  (rgb1 <- hex_to_rgb color1 ;;
   rgb2 <- hex_to_rgb color2 ;;
   let '(r1, g1, b1) := rgb1 in
   let '(r2, g2, b2) := rgb2 in
   r <- blend_channel r1 r2 ratio ;;
   g <- blend_channel g1 g2 ratio ;;
   b <- blend_channel b1 b2 ratio ;;
   Ok (r, g, b))%exc.

(** The colour of row [y] of the gradient: [ratio = y / size], then the
    blend of the two palette colours. *)
Definition gradient_color (size y : Z) : Exc RGB :=
  (ratio <- truediv y size ;;
   c1 <- COLORS_get "background" ;;
   c2 <- COLORS_get "gradient" ;;
   blend_colors c1 c2 ratio)%exc.
End Blend.

(** Exact rational arithmetic. *)
Definition Qtrunc (q : Q) : Z := Z.quot (Qnum q) (Z.pos (Qden q)).

#[export] Instance Q_PyFloat : PyFloat Q := {
  of_int := inject_Z;
  decimal := fun m k => Qmake m (Pos.pow 10 (Pos.of_nat k)) ;
  fadd := Qplus;
  fsub := Qminus;
  fmul := Qmult;
  fdiv := Qdiv;
  to_int := fun q => Ok (Qtrunc q);
  fgt := fun x y => negb (Qle_bool x y)
}.

(** IEEE 754 binary64, the [float] of CPython.  An [int] operand converts
    with rounding to nearest even (exact below [2^53]; an [int] beyond the
    range of [float], where Python raises, is outside this instance), a
    decimal literal is the correctly rounded quotient of two exact
    operands, and [int(x)] drops the fraction. *)
Module Binary64.

Definition of_Z (z : Z) : PrimFloat.float :=
  FloatOps.SF2Prim (SpecFloat.binary_normalize 53 1024 z 0 false).

Definition trunc (x : PrimFloat.float) : Exc Z :=
  match FloatOps.Prim2SF x with
  | SpecFloat.S754_zero _ => Ok 0
  | SpecFloat.S754_finite sign m e =>
      let magnitude := if 0 <=? e then Z.pos m * 2 ^ e else Z.pos m / 2 ^ (- e) in
      Ok (if sign then - magnitude else magnitude)
  | SpecFloat.S754_infinity _ =>
      Raise (mkExc OverflowError "cannot convert float infinity to integer")
  | SpecFloat.S754_nan =>
      Raise (mkExc ValueError "cannot convert float NaN to integer")
  end.

#[global] Instance float_PyFloat : PyFloat PrimFloat.float := {
  of_int := of_Z;
  decimal := fun m k => PrimFloat.div (of_Z m) (of_Z (10 ^ Z.of_nat k));
  fadd := PrimFloat.add;
  fsub := PrimFloat.sub;
  fmul := PrimFloat.mul;
  fdiv := PrimFloat.div;
  to_int := trunc;
  fgt := fun x y => PrimFloat.ltb y x
}.

End Binary64.

(** ** Pillow *)

Definition RGBA : Type := Z * Z * Z * Z.

(** An image of mode ['RGBA']: its [size] as [(width, height)] and its
    pixels.  Only the pixels inside the size are meaningful. *)
Record Image : Type := mkImage {
  im_size : Z * Z;
  getpixel : Z -> Z -> RGBA
}.

(** What the script takes from the library as given: the pixels a
    primitive covers, the blurred value of a pixel, and one pixel laid over
    another ([alpha_over dst src]). *)
Class Pillow (F : Type) : Type := {
  line_covers : list (Z * Z) -> Z -> Z -> bool;
  ellipse_covers : F * F * F * F -> Z -> Z -> bool;
  polygon_covers : list (F * F) -> Z -> Z -> bool;
  gaussian_blur : Z -> Image -> Z -> Z -> RGBA;
  alpha_over : RGBA -> RGBA -> RGBA
}.

Definition clip8 (v : Z) : Z := Z.max 0 (Z.min 255 v).

(** The ink of a 3-tuple on an ['RGBA'] image: opaque. *)
Definition ink_rgb (c : RGB) : RGBA :=
  let '(r, g, b) := c in (clip8 r, clip8 g, clip8 b, 255).

Definition ink_rgba (c : RGBA) : RGBA :=
  let '(r, g, b, a) := c in (clip8 r, clip8 g, clip8 b, clip8 a).

Definition transparent : RGBA := (0, 0, 0, 0).

(** [Image.new('RGBA', size, color)] *)
Definition Image_new (size : Z * Z) (ink : RGBA) : Exc Image :=
  if (fst size <? 0) || (snd size <? 0)
  then Raise (mkExc ValueError "Width and height must be >= 0")
  else Ok (mkImage size (fun _ _ => ink)).

(** A drawing call writes its ink over the covered pixels of the image it
    was created for; the size of the image does not change. *)
Definition paint (covers : Z -> Z -> bool) (ink : RGBA) (img : Image) : Image :=
  mkImage (im_size img) (fun x y => if covers x y then ink else getpixel img x y).

Section Drawing.
Context {F : Type} `{PyFloat F} `{Pillow F}.

Definition draw_line (img : Image) (xy : list (Z * Z)) (fill : RGB) : Image :=
  paint (line_covers xy) (ink_rgb fill) img.

Definition draw_ellipse (img : Image) (xy : F * F * F * F) (fill : RGB) : Image :=
  paint (ellipse_covers xy) (ink_rgb fill) img.

Definition draw_polygon (img : Image) (xy : list (F * F)) (fill : RGB) : Image :=
  paint (polygon_covers xy) (ink_rgb fill) img.

(** [img.copy()] *)
Definition Image_copy (img : Image) : Image :=
  mkImage (im_size img) (getpixel img).

(** [img.filter(ImageFilter.GaussianBlur(radius))] *)
Definition filter_GaussianBlur (radius : Z) (img : Image) : Image :=
  mkImage (im_size img) (gaussian_blur radius img).

Definition size_eqb (a b : Z * Z) : bool :=
  (fst a =? fst b) && (snd a =? snd b).

(** [Image.alpha_composite(im1, im2)]: [im2] over [im1]. *)
Definition alpha_composite (im1 im2 : Image) : Exc Image :=
  if size_eqb (im_size im1) (im_size im2)
  then Ok (mkImage (im_size im1)
             (fun x y => alpha_over (getpixel im1 x y) (getpixel im2 x y)))
  else Raise (mkExc ValueError "images do not match").

Definition apply_glow_effect (img : Image) : Exc Image :=
  (let glow := Image_copy img in
   let glow := filter_GaussianBlur 3 glow in
   result <- Image_new (im_size img) (ink_rgba (0, 0, 0, 0)) ;;
   result <- alpha_composite result glow ;;
   result <- alpha_composite result img ;;
   Ok result)%exc.

(** [hex_to_rgb(COLORS[name])] *)
Definition palette (name : string) : Exc RGB :=
  (c <- COLORS_get name ;; hex_to_rgb c)%exc.

(** One turn of the gradient loop. *)
Definition gradient_row (size : Z) (y : Z) (img : Image) : Exc Image :=
  (bg_color <- gradient_color size y ;;
   Ok (draw_line img [(0, y); (size, y)] bg_color))%exc.

Definition max2 (x : F) : F :=
  if (x >? of_int 2)%py then x else of_int 2.

(** One turn of the particle loop, given [body_left] and [bird_size]. *)
Definition particle (size center_y : Z) (body_left bird_size : F)
    (i : Z) (img : Image) : Exc Image :=
  (let particle_x :=
     (body_left - bird_size * decimal 3 1 - of_int (i * size) * decimal 5 2)%py in
   let particle_y :=
     (of_int center_y
      + (of_int (i mod 2) - decimal 5 1) * of_int size * decimal 1 1)%py in
   let particle_size := max2 (of_int size * decimal 2 2 - of_int i)%py in
   if (particle_x >? of_int 0)%py then
     fill <- palette "primary_neon" ;;
     Ok (draw_ellipse img
           ((particle_x - particle_size)%py, (particle_y - particle_size)%py,
            (particle_x + particle_size)%py, (particle_y + particle_size)%py)
           fill)
   else Ok img)%exc.

Definition create_neon_bird_icon (size : Z) : Exc Image :=
  (img <- Image_new (size, size) (ink_rgba (0, 0, 0, 0)) ;;
   img <- for_each (range size) (gradient_row size) img ;;
   let center_x := size / 2 in
   let center_y := size / 2 in
   let bird_size := (of_int size * decimal 6 1)%py in
   let body_left := (of_int center_x - bird_size * decimal 3 1)%py in
   let body_top := (of_int center_y - bird_size * decimal 2 1)%py in
   let body_right := (of_int center_x + bird_size * decimal 2 1)%py in
   let body_bottom := (of_int center_y + bird_size * decimal 2 1)%py in
   fill <- palette "primary_neon" ;;
   let img := draw_ellipse img (body_left, body_top, body_right, body_bottom) fill in
   let beak_points :=
     [ (body_right, (of_int center_y - bird_size * decimal 5 2)%py);
       ((body_right + bird_size * decimal 15 2)%py, of_int center_y);
       (body_right, (of_int center_y + bird_size * decimal 5 2)%py) ] in
   fill <- palette "secondary_neon" ;;
   let img := draw_polygon img beak_points fill in
   let tail_points :=
     [ (body_left, (of_int center_y - bird_size * decimal 1 1)%py);
       ((body_left - bird_size * decimal 2 1)%py,
        (of_int center_y - bird_size * decimal 15 2)%py);
       ((body_left - bird_size * decimal 15 2)%py,
        (of_int center_y + bird_size * decimal 5 2)%py);
       (body_left, (of_int center_y + bird_size * decimal 1 1)%py) ] in
   fill <- palette "accent_neon" ;;
   let img := draw_polygon img tail_points fill in
   img <- for_each (range 5) (particle size center_y body_left bird_size) img ;;
   img <- apply_glow_effect img ;;
   Ok img)%exc.
End Drawing.

(** ** The outside world *)

(** The effects a run completes, in the order they happen.  A call that
    raises leaves no event. *)
Inductive Event : Type :=
  | Makedirs (path : string)
  | Saved (path : string) (img : Image)
  | Printed (line : string).

(** The operating system under the script: [os.makedirs(path,
    exist_ok=True)] and the write of an encoded image to a path, each
    answering from the state of the world and free to raise. *)
Class OS (W : Type) : Type := {
  os_makedirs : string -> W -> Exc unit * W;
  os_write : string -> Image -> W -> Exc unit * W
}.

Record State (W : Type) : Type := mkState {
  world : W;
  trace : list Event
}.
Arguments mkState {W} world trace.
Arguments world {W} s.
Arguments trace {W} s.

Definition IO (W A : Type) : Type := State W -> Exc A * State W.

Definition ret {W A : Type} (a : A) : IO W A := fun s => (Ok a, s).

Definition bind {W A B : Type} (c : IO W A) (k : A -> IO W B) : IO W B :=
  fun s =>
    match c s with
    | (Ok a, s') => k a s'
    | (Raise e, s') => (Raise e, s')
    end.

(** A computation without effects, run inside [IO]. *)
Definition lift {W A : Type} (c : Exc A) : IO W A := fun s => (c, s).

(** [try: body  except Exception as e: handler(e)] *)
Definition try_except {W A : Type} (body : IO W A) (handler : PyExc -> IO W A) : IO W A :=
  fun s =>
    match body s with
    | (Ok a, s') => (Ok a, s')
    | (Raise e, s') => if is_Exception e then handler e s' else (Raise e, s')
    end.

Declare Scope io_scope.
Delimit Scope io_scope with io.
Notation "x <- c ;; k" := (bind c (fun x => k))
  (at level 100, c at next level, right associativity) : io_scope.
Notation "c ;; k" := (bind c (fun _ => k))
  (at level 100, right associativity) : io_scope.

Fixpoint io_for_each {W A : Type} (xs : list A) (body : A -> IO W unit) : IO W unit :=
  match xs with
  | [] => ret tt
  | x :: rest => (body x ;; io_for_each rest body)%io
  end.

Definition emit {W : Type} (ev : Event) (s : State W) : State W :=
  mkState (world s) (trace s ++ [ev]).

(** [print(line)] *)
Definition print {W : Type} (line : string) : IO W unit :=
  fun s => (Ok tt, emit (Printed line) s).

(** [str * n] *)
Fixpoint str_repeat (s : string) (n : nat) : string :=
  match n with
  | O => ""
  | S k => s +:+ str_repeat s k
  end.

(** [str(n)] of an int, as an f-string formats it *)
Definition str_int (n : Z) : string := pretty n.

Section Generator.
Context {F : Type} `{PyFloat F} `{Pillow F} {W : Type} `{OS W}.

Definition makedirs (path : string) : IO W unit :=
  fun s =>
    match os_makedirs path (world s) with
    | (Ok _, w) => (Ok tt, emit (Makedirs path) (mkState w (trace s)))
    | (Raise e, w) => (Raise e, mkState w (trace s))
    end.

(** [img.save(path)]: the file holds the encoded bitmap. *)
Definition save (img : Image) (path : string) : IO W unit :=
  fun s =>
    match os_write path img (world s) with
    | (Ok _, w) => (Ok tt, emit (Saved path img) (mkState w (trace s)))
    | (Raise e, w) => (Raise e, mkState w (trace s))
    end.

(** The dict literals, in insertion order (the order [items()] yields). *)
Definition android_sizes : list (string * Z) :=
  [ ("mdpi", 48); ("hdpi", 72); ("xhdpi", 96); ("xxhdpi", 144); ("xxxhdpi", 192) ].

Definition android_base_path : string := "../android/app/src/main/res".

Definition android_density (entry : string * Z) : IO W unit :=
  (let '(density, size) := entry in
   let dir_path := android_base_path +:+ "/mipmap-" +:+ density in
   makedirs dir_path ;;
   icon <- lift (create_neon_bird_icon size) ;;
   save icon (dir_path +:+ "/ic_launcher.png") ;;
   bg <- lift (fill <- palette "background" ;;
               Image_new (size, size) (ink_rgb fill))%exc ;;
   save bg (dir_path +:+ "/ic_launcher_background.png") ;;
   fg <- lift (create_neon_bird_icon size) ;;
   save fg (dir_path +:+ "/ic_launcher_foreground.png") ;;
   print ("Generated Android " +:+ density +:+ " icons ("
          +:+ str_int size +:+ "x" +:+ str_int size +:+ ")"))%io.

Definition generate_android_icons : IO W unit :=
  io_for_each android_sizes android_density.

Definition ios_sizes : list (string * Z) :=
  [ ("Icon-App-20x20@1x.png", 20);
    ("Icon-App-20x20@2x.png", 40);
    ("Icon-App-20x20@3x.png", 60);
    ("Icon-App-29x29@1x.png", 29);
    ("Icon-App-29x29@2x.png", 58);
    ("Icon-App-29x29@3x.png", 87);
    ("Icon-App-40x40@1x.png", 40);
    ("Icon-App-40x40@2x.png", 80);
    ("Icon-App-40x40@3x.png", 120);
    ("Icon-App-60x60@2x.png", 120);
    ("Icon-App-60x60@3x.png", 180);
    ("Icon-App-76x76@1x.png", 76);
    ("Icon-App-76x76@2x.png", 152);
    ("Icon-App-83.5x83.5@2x.png", 167);
    ("Icon-App-1024x1024@1x.png", 1024) ].

Definition ios_base_path : string :=
  "../ios/Runner/Assets.xcassets/AppIcon.appiconset".

Definition ios_icon (entry : string * Z) : IO W unit :=
  (let '(filename, size) := entry in
   icon <- lift (create_neon_bird_icon size) ;;
   save icon (ios_base_path +:+ "/" +:+ filename) ;;
   print ("Generated iOS icon " +:+ filename +:+ " ("
          +:+ str_int size +:+ "x" +:+ str_int size +:+ ")"))%io.

Definition generate_ios_icons : IO W unit :=
  io_for_each ios_sizes ios_icon.

(** The body of the [try] in [main]. *)
Definition generate_all : IO W unit :=
  (generate_android_icons ;;
   print "" ;;
   generate_ios_icons ;;
   print "" ;;
   print "✅ All icons generated successfully!" ;;
   print "Note: Make sure to update AndroidManifest.xml and Info.plist with proper app names.")%io.

(** The [except Exception as e] clause of [main]. *)
Definition report_failure (e : PyExc) : IO W unit :=
  (print ("❌ Error generating icons: " +:+ exc_str e) ;;
   print "Make sure you have Pillow installed: pip install Pillow")%io.

Definition main : IO W unit :=
  (print "Generating Neon Pulse Flappy Bird App Icons..." ;;
   print (str_repeat "=" 50) ;;
   try_except generate_all report_failure)%io.
End Generator.

(** ** A software rasteriser and an in-memory file system

    One implementation of each interface, to run the script on closed
    inputs.  The theorems below hold for every implementation. *)

Module Reference.

Definition between (a b v : Z) : bool :=
  (Z.min a b <=? v) && (v <=? Z.max a b).

(** The consecutive pairs of a point list. *)
Fixpoint segments {A : Type} (pts : list A) : list (A * A) :=
  match pts with
  | p :: (q :: _) as rest => (p, q) :: segments rest
  | _ => []
  end.

Definition on_segment (seg : (Z * Z) * (Z * Z)) (x y : Z) : bool :=
  let '((x0, y0), (x1, y1)) := seg in
  between x0 x1 x && between y0 y1 y
  && ((x - x0) * (y1 - y0) =? (y - y0) * (x1 - x0)).

Definition line (xy : list (Z * Z)) (x y : Z) : bool :=
  existsb (fun seg => on_segment seg x y) (segments xy).

Section Raster.
Context {F : Type} `{PyFloat F}.

(** Inside the ellipse inscribed in the box. *)
Definition ellipse (box : F * F * F * F) (x y : Z) : bool :=
  let '(x0, y0, x1, y1) := box in
  let w := (x1 - x0)%py in
  let h := (y1 - y0)%py in
  let a := (of_int (2 * x) - x0 - x1)%py in
  let b := (of_int (2 * y) - y0 - y1)%py in
  negb (a * a * (h * h) + b * b * (w * w) >? w * w * (h * h))%py.

(** The edge crosses the ray that leaves [(x, y)] to the right. *)
Definition crosses (edge : (F * F) * (F * F)) (x y : Z) : bool :=
  let '((xa, ya), (xb, yb)) := edge in
  let py := of_int y in
  let px := of_int x in
  if Bool.eqb (ya >? py)%py (yb >? py)%py then false
  else (xa + fdiv ((py - ya) * (xb - xa)) (yb - ya) >? px)%py.

Definition closed {A : Type} (pts : list A) : list A :=
  match pts with
  | p :: _ => pts ++ [p]
  | [] => []
  end.

(** Even-odd rule. *)
Definition polygon (xy : list (F * F)) (x y : Z) : bool :=
  Nat.odd (length (List.filter (fun e => crosses e x y) (segments (closed xy)))).
End Raster.

Definition clamp (lo hi v : Z) : Z := Z.max lo (Z.min hi v).

Definition rgba_add (p q : RGBA) : RGBA :=
  let '(r1, g1, b1, a1) := p in
  let '(r2, g2, b2, a2) := q in
  (r1 + r2, g1 + g2, b1 + b2, a1 + a2).

Definition rgba_div (p : RGBA) (n : Z) : RGBA :=
  let '(r, g, b, a) := p in (r / n, g / n, b / n, a / n).

(** [first, first + 1, ..., first + n - 1] *)
Definition span (first : Z) (n : nat) : list Z :=
  map (fun k => first + Z.of_nat k) (seq 0 n).

(** The mean over the window of the radius, the edge pixels repeated. *)
Definition blur (radius : Z) (img : Image) (x y : Z) : RGBA :=
  let '(w, h) := im_size img in
  let side := Z.to_nat (2 * radius + 1) in
  let window :=
    flat_map (fun dy => map (fun dx => (dx, dy)) (span (x - radius) side))
             (span (y - radius) side) in
  let total :=
    fold_left
      (fun acc p => rgba_add acc
         (getpixel img (clamp 0 (w - 1) (fst p)) (clamp 0 (h - 1) (snd p))))
      window (0, 0, 0, 0) in
  rgba_div total (Z.max 1 (Z.of_nat (length window))).

(** Source over destination, straight alpha, 8 bits a channel. *)
Definition over (dst src : RGBA) : RGBA :=
  let '(dr, dg, db, da) := dst in
  let '(sr, sg, sb, sa) := src in
  let rest := da * (255 - sa) / 255 in
  let oa := sa + rest in
  if oa =? 0 then (0, 0, 0, 0)
  else ((sr * sa + dr * rest) / oa,
        (sg * sa + dg * rest) / oa,
        (sb * sa + db * rest) / oa,
        oa).

Definition pillow {F : Type} `{PyFloat F} : Pillow F := {|
  line_covers := line;
  ellipse_covers := ellipse;
  polygon_covers := polygon;
  gaussian_blur := blur;
  alpha_over := over
|}.

(** Directories and regular files, by path. *)
Record MemFS : Type := mkMemFS {
  dirs : gset string;
  files : gmap string Image
}.

Definition empty_fs : MemFS := mkMemFS ∅ ∅.

(** The prefixes of [pre ++ s] that end just before a ['/'] of [s]. *)
Fixpoint parents_from (pre s : string) : list string :=
  match s with
  | EmptyString => []
  | String c rest =>
      (if Ascii.eqb c "/" then [pre] else [])
      ++ parents_from (pre +:+ String c EmptyString) rest
  end.

Definition parents (path : string) : list string :=
  List.filter (fun p => negb (String.eqb p "")) (parents_from "" path).

Definition dirname (path : string) : string := default "" (last (parents path)).

Definition is_file (fs : MemFS) (path : string) : bool :=
  match files fs !! path with
  | Some _ => true
  | None => false
  end.

Definition is_dir (fs : MemFS) (path : string) : bool :=
  bool_decide (path ∈ dirs fs).

Definition mem_makedirs (path : string) (fs : MemFS) : Exc unit * MemFS :=
  if is_file fs path
  then (Raise (mkExc OSError ("[Errno 17] File exists: '" +:+ path +:+ "'")), fs)
  else if existsb (is_file fs) (parents path)
  then (Raise (mkExc OSError ("[Errno 20] Not a directory: '" +:+ path +:+ "'")), fs)
  else (Ok tt, mkMemFS (list_to_set (parents path ++ [path]) ∪ dirs fs) (files fs)).

Definition mem_write (path : string) (img : Image) (fs : MemFS) : Exc unit * MemFS :=
  if is_dir fs path
  then (Raise (mkExc OSError ("[Errno 21] Is a directory: '" +:+ path +:+ "'")), fs)
  else if is_dir fs (dirname path)
  then (Ok tt, mkMemFS (dirs fs) (<[path := img]> (files fs)))
  else (Raise (mkExc OSError ("[Errno 2] No such file or directory: '" +:+ path +:+ "'")), fs).

(** The rasteriser in each of the two arithmetics. *)
Definition pillow_Q : Pillow Q := pillow.

Definition pillow_binary64 : Pillow PrimFloat.float := pillow.

Definition memfs : OS MemFS := {|
  os_makedirs := mem_makedirs;
  os_write := mem_write
|}.

Definition start (fs : MemFS) : State MemFS := mkState fs [].

(** A checkout in which the iOS asset catalogue exists. *)
Definition checkout : MemFS :=
  mkMemFS (list_to_set (parents ios_base_path ++ [ios_base_path])) ∅.

End Reference.

(** ** What the specification says, as definitions

    Each definition of this part follows the words of the specification
    and is compared with the script by the theorems. *)



(** The particle dots of the trail: centre and radius of dot [i]. *)
Section Trail.
Variables (size center : Z) (bodyLeft birdSize : Q).






End Trail.

Definition primary_neon : RGB := (0, 255, 255).

(** The background colour of the palette, opaque. *)
Definition background_rgba : RGBA := (11, 11, 31, 255).

(** A [size] x [size] image of one colour. *)
Definition flat (size : Z) (ink : RGBA) : Image :=
  mkImage (size, size) (fun _ _ => ink).





(** The events of a trace, by kind. *)
Definition saved (t : list Event) : list (string * Image) :=
  flat_map (fun ev => match ev with Saved p img => [(p, img)] | _ => [] end) t.

Definition created (t : list Event) : list string :=
  flat_map (fun ev => match ev with Makedirs p => [p] | _ => [] end) t.

Definition printed (t : list Event) : list string :=
  flat_map (fun ev => match ev with Printed l => [l] | _ => [] end) t.

(** What a computation adds to the trace of the state it starts from. *)
Definition effects {W A : Type} (c : IO W A) (s : State W) : list Event :=
  drop (length (trace s)) (trace (snd (c s))).

Section Plans.
Context {F : Type} `{PyFloat F} `{Pillow F} {W : Type} `{OS W}.

(** The exception is one the operating system raised. *)
Definition os_raised (e : PyExc) : Prop :=
  (exists path w, fst (os_makedirs path w) = Raise e)
  \/ (exists path img w, fst (os_write path img w) = Raise e).

(** The bitmap [create_neon_bird_icon] returns. *)
Definition rendered (size : Z) : Image :=
  match create_neon_bird_icon size with
  | Ok img => img
  | Raise _ => flat 0 transparent
  end.

Definition perform (ev : Event) : IO W unit :=
  match ev with
  | Makedirs path => makedirs path
  | Saved path img => save img path
  | Printed line => print line
  end.

Fixpoint perform_all (evs : list Event) : IO W unit :=
  match evs with
  | [] => ret tt
  | ev :: rest => (perform ev ;; perform_all rest)%io
  end.

(** The density buckets of the specification. *)
Definition density_buckets : list (string * Z) :=
  [ ("mdpi", 48); ("hdpi", 72); ("xhdpi", 96); ("xxhdpi", 144); ("xxxhdpi", 192) ].

Definition mipmap (density : string) : string :=
  "../android/app/src/main/res/mipmap-" +:+ density.

(** One density: the directory, then its three files. *)
Definition density_files (bucket : string * Z) : list Event :=
  let '(density, size) := bucket in
  [ Makedirs (mipmap density);
    Saved (mipmap density +:+ "/ic_launcher.png") (rendered size);
    Saved (mipmap density +:+ "/ic_launcher_background.png") (flat size background_rgba);
    Saved (mipmap density +:+ "/ic_launcher_foreground.png") (rendered size) ].

Definition density_plan (bucket : string * Z) : list Event :=
  density_files bucket
  ++ [ Printed ("Generated Android " +:+ fst bucket +:+ " icons ("
                +:+ str_int (snd bucket) +:+ "x" +:+ str_int (snd bucket) +:+ ")") ].

Definition android_plan : list Event := flat_map density_plan density_buckets.

Definition ios_file (entry : string * Z) : Event :=
  Saved (ios_base_path +:+ "/" +:+ fst entry) (rendered (snd entry)).

Definition ios_entry_plan (entry : string * Z) : list Event :=
  [ ios_file entry;
    Printed ("Generated iOS icon " +:+ fst entry +:+ " ("
             +:+ str_int (snd entry) +:+ "x" +:+ str_int (snd entry) +:+ ")") ].

Definition ios_plan : list Event := flat_map ios_entry_plan ios_sizes.

Definition success_lines : list Event :=
  [ Printed "";
    Printed "✅ All icons generated successfully!";
    Printed "Note: Make sure to update AndroidManifest.xml and Info.plist with proper app names." ].

Definition all_plan : list Event :=
  android_plan ++ [Printed ""] ++ ios_plan ++ success_lines.

Definition banner : list Event :=
  [ Printed "Generating Neon Pulse Flappy Bird App Icons...";
    Printed "==================================================" ].

Definition failure_lines (e : PyExc) : list Event :=
  [ Printed ("❌ Error generating icons: " +:+ exc_str e);
    Printed "Make sure you have Pillow installed: pip install Pillow" ].
End Plans.


(** The state [main] enters its [try] in: the two banner lines are out. *)
Definition after_banner {W : Type} (s : State W) : State W :=
  mkState (world s) (trace s ++ banner).

(** The slots of the iOS catalogue: a base size and the scales it comes in. *)
Definition ios_slots : list (string * list string) :=
  [ ("20", ["1"; "2"; "3"]);
    ("29", ["1"; "2"; "3"]);
    ("40", ["1"; "2"; "3"]);
    ("60", ["2"; "3"]);
    ("76", ["1"; "2"]);
    ("83.5", ["2"]);
    ("1024", ["1"]) ].

(** [Icon-App-<w>x<h>@<scale>x.png] *)
Definition slot_names (slot : string * list string) : list string :=
  map (fun scale =>
         "Icon-App-" +:+ fst slot +:+ "x" +:+ fst slot +:+ "@" +:+ scale +:+ "x.png")
      (snd slot).

Definition ios_filenames : list string := flat_map slot_names ios_slots.

Section Dots.
Context `{Pillow Q}.

End Dots.

Section Bitmaps.
Context {F : Type} `{PyFloat F} `{Pillow F}.

(** The three files of a density, as [(path, bitmap)]. *)
Definition density_bitmaps (bucket : string * Z) : list (string * Image) :=
  let '(density, size) := bucket in
  [ (mipmap density +:+ "/ic_launcher.png", rendered size);
    (mipmap density +:+ "/ic_launcher_background.png", flat size background_rgba);
    (mipmap density +:+ "/ic_launcher_foreground.png", rendered size) ].

Definition ios_bitmap (entry : string * Z) : string * Image :=
  (ios_base_path +:+ "/" +:+ fst entry, rendered (snd entry)).
End Bitmaps.

Section Completion.
Context {F : Type} `{PyFloat F} `{Pillow F} {W : Type} `{OS W}.

(** The run of [main] from [s] reaches the end of its [try] body. *)
Definition completes (s : State W) : Prop :=
  fst (generate_all (after_banner s)) = Ok tt.
End Completion.

(** The paths the generator writes:
    [<android-res>/mipmap-<density>/ic_launcher*.png] and
    [<ios-appiconset>/<file name>]. *)
Definition android_paths : list string :=
  flat_map (fun bucket : string * Z =>
              [ mipmap (fst bucket) +:+ "/ic_launcher.png";
                mipmap (fst bucket) +:+ "/ic_launcher_background.png";
                mipmap (fst bucket) +:+ "/ic_launcher_foreground.png" ])
           density_buckets.

Definition ios_paths : list string :=
  map (fun name => ios_base_path +:+ "/" +:+ name) ios_filenames.

(** The sizes the two tables ask for. *)
Definition table_sizes : list Z := map snd (android_sizes ++ ios_sizes).

Definition is_ok {A : Type} (c : Exc A) : bool :=
  match c with
  | Ok _ => true
  | Raise _ => false
  end.

Section Rows.
Context {F : Type} `{PyFloat F}.

(** The gradient loop at [size] meets no exception. *)
Definition renders (size : Z) : Prop :=
  forall y, In y (range size) -> exists c, gradient_color size y = Ok c.

Definition rows_ok (size : Z) : bool :=
  forallb (fun y => is_ok (gradient_color size y)) (range size).
End Rows.

(** ** Further definitions

    The rest of this part serves the properties that go beyond the
    specification: named pieces of the renderer, and the vocabulary of
    their statements. *)

(** [format(d, 'X')] or [format(d, 'x')] of one hexadecimal digit *)
Definition hex_char (upper : bool) (d : Z) : ascii :=
  ascii_of_nat (Z.to_nat (if d <? 10 then 48 + d else if upper then 55 + d else 87 + d)).

(** [format(v, '02X')] or [format(v, '02x')] of a byte *)
Definition hex_byte (upper : bool) (v : Z) : string :=
  String (hex_char upper (v / 16)) (String (hex_char upper (v mod 16)) EmptyString).

(** ['%02X%02X%02X' % rgb] *)
Definition hex_code (upper : bool) (c : RGB) : string :=
  let '(r, g, b) := c in hex_byte upper r +:+ hex_byte upper g +:+ hex_byte upper b.

Definition is_byte (v : Z) : Prop := 0 <= v <= 255.

(** A binary64 NaN. *)
Definition is_nan (x : PrimFloat.float) : Prop :=
  FloatOps.Prim2SF x = SpecFloat.S754_nan.

(** The alpha channel of a pixel. *)
Definition alpha (p : RGBA) : Z := snd p.

(** The pixels of an image: the positions inside its size. *)
Definition inside (img : Image) (x y : Z) : Prop :=
  0 <= x < fst (im_size img) /\ 0 <= y < snd (im_size img).

(** Every pixel of the image has full alpha. *)
Definition opaque (img : Image) : Prop :=
  forall x y, inside img x y -> alpha (getpixel img x y) = 255.

(** A binary64 zero, of either sign. *)
Definition is_zero (x : PrimFloat.float) : bool :=
  match FloatOps.Prim2SF x with
  | SpecFloat.S754_zero _ => true
  | _ => false
  end.

(** The computation returns [z]. *)
Definition returns (c : Exc Z) (z : Z) : bool :=
  match c with
  | Ok v => v =? z
  | Raise _ => false
  end.

(** The values a channel of [hex_to_rgb] can take: -15 to 255. *)
Definition channel_values : list Z := map (fun k => k - 15) (range 271).

(** In binary64, for a channel value [c]: its products by zero are zeros,
    and the sums of the blend at the ratios 0 and 1, whose other term is
    such a zero, convert to [c]. *)
Definition endpoint_exact (c : Z) : bool :=
  let f := PrimFloat.float in
  is_zero (of_int (F := f) c * of_int 0)%py
  && is_zero (of_int (F := f) c * (of_int 1 - of_int 1))%py
  && forallb (fun z => returns (to_int (of_int (F := f) c * (of_int 1 - of_int 0) + z)%py) c
                       && returns (to_int (z + of_int (F := f) c * of_int 1)%py) c)
             [PrimFloat.zero; PrimFloat.neg_zero].

(** The geometry of [create_neon_bird_icon], each name as a function of
    [size]. *)
Section Geometry.
Context {F : Type} `{PyFloat F}.

(** [bird_size = size * 0.6] *)
Definition bird_size (size : Z) : F := (of_int size * decimal 6 1)%py.

(** [body_left = center_x - bird_size * 0.3] and the three other sides,
    with [center_x = center_y = size // 2] *)
Definition body_left (size : Z) : F :=
  (of_int (size / 2) - bird_size size * decimal 3 1)%py.

Definition body_top (size : Z) : F :=
  (of_int (size / 2) - bird_size size * decimal 2 1)%py.

Definition body_right (size : Z) : F :=
  (of_int (size / 2) + bird_size size * decimal 2 1)%py.

Definition body_bottom (size : Z) : F :=
  (of_int (size / 2) + bird_size size * decimal 2 1)%py.

Definition body_box (size : Z) : F * F * F * F :=
  (body_left size, body_top size, body_right size, body_bottom size).

Definition beak_points (size : Z) : list (F * F) :=
  [ (body_right size, (of_int (size / 2) - bird_size size * decimal 5 2)%py);
    ((body_right size + bird_size size * decimal 15 2)%py, of_int (size / 2));
    (body_right size, (of_int (size / 2) + bird_size size * decimal 5 2)%py) ].

Definition tail_points (size : Z) : list (F * F) :=
  [ (body_left size, (of_int (size / 2) - bird_size size * decimal 1 1)%py);
    ((body_left size - bird_size size * decimal 2 1)%py,
     (of_int (size / 2) - bird_size size * decimal 15 2)%py);
    ((body_left size - bird_size size * decimal 15 2)%py,
     (of_int (size / 2) + bird_size size * decimal 5 2)%py);
    (body_left size, (of_int (size / 2) + bird_size size * decimal 1 1)%py) ].

(** [particle_x], [particle_y] and [particle_size] of turn [i] of the
    particle loop, and the box of its ellipse *)
Definition particle_x (size i : Z) : F :=
  (body_left size - bird_size size * decimal 3 1 - of_int (i * size) * decimal 5 2)%py.

Definition particle_y (size i : Z) : F :=
  (of_int (size / 2) + (of_int (i mod 2) - decimal 5 1) * of_int size * decimal 1 1)%py.

Definition particle_radius (size i : Z) : F :=
  max2 (of_int size * decimal 2 2 - of_int i)%py.

Definition particle_box (size i : Z) : F * F * F * F :=
  ((particle_x size i - particle_radius size i)%py,
   (particle_y size i - particle_radius size i)%py,
   (particle_x size i + particle_radius size i)%py,
   (particle_y size i + particle_radius size i)%py).

(** The box [x0, y0, x1, y1] has [x0 <= x1] and [y0 <= y1], as Pillow
    asks of the box of an ellipse. *)
Definition box_ordered (box : F * F * F * F) : bool :=
  let '(x0, y0, x1, y1) := box in negb (x0 >? x1)%py && negb (y0 >? y1)%py.

(** The boxes of the ellipses that [create_neon_bird_icon] draws at a
    size: the body and the five particles. *)
Definition ellipse_boxes (size : Z) : list (F * F * F * F) :=
  body_box size :: map (particle_box size) (range 5).

(** Turn [i] of the particle loop draws: [particle_x > 0]. *)
Definition particle_drawn (size i : Z) : bool := (particle_x size i >? of_int 0)%py.

(** The colour of row [y] of the gradient. *)
Definition row_color (size y : Z) : RGB :=
  match gradient_color size y with
  | Ok c => c
  | Raise _ => (0, 0, 0)
  end.

Context `{Pillow F}.

(** The particle loop as [create_neon_bird_icon] runs it. *)
Definition particle_trail (size : Z) (img : Image) : Exc Image :=
  for_each (range 5) (particle size (size / 2) (body_left size) (bird_size size)) img.

(** [create_neon_bird_icon] up to its last drawing call: the canvas that
    [apply_glow_effect] is given. *)
Definition canvas_before_glow (size : Z) : Exc Image :=
  (img <- Image_new (size, size) (ink_rgba (0, 0, 0, 0)) ;;
   img <- for_each (range size) (gradient_row size) img ;;
   fill <- palette "primary_neon" ;;
   let img := draw_ellipse img (body_box size) fill in
   fill <- palette "secondary_neon" ;;
   let img := draw_polygon img (beak_points size) fill in
   fill <- palette "accent_neon" ;;
   let img := draw_polygon img (tail_points size) fill in
   particle_trail size img)%exc.

(** The drawing calls in the order of the script, the last one on top:
    gradient row, body, beak, tail, particles. *)
Definition layered_pixel (size x y : Z) : RGBA :=
  if existsb (fun i => particle_drawn size i && ellipse_covers (particle_box size i) x y)
             (range 5)
  then ink_rgb (0, 255, 255)
  else if polygon_covers (tail_points size) x y then ink_rgb (57, 255, 20)
  else if polygon_covers (beak_points size) x y then ink_rgb (255, 20, 147)
  else if ellipse_covers (body_box size) x y then ink_rgb (0, 255, 255)
  else ink_rgb (row_color size y).

(** Two facts of Pillow that the properties of the pixels rest on: the
    line from [(0, y)] to [(size, y)] covers, of the pixels with
    [0 <= x < size], those of row [y]; and a pixel of full alpha laid over
    another replaces it. *)
Definition horizontal_line_fills_row : Prop :=
  forall size x y row, 0 <= x < size ->
    line_covers [(0, row); (size, row)] x y = (y =? row).

Definition opaque_source_replaces : Prop :=
  forall dst src : RGBA, alpha src = 255 -> alpha_over dst src = src.
End Geometry.

(** In binary64, at a size: the turns of the particle loop that draw are
    the first three; and the rows of the gradient have red and blue
    [11 + 15*y // size] and [31 + 15*y // size] and green 11 or, below the
    first row, 10. *)
Definition draws_first_three (size : Z) : bool :=
  forallb (fun i => Bool.eqb (particle_drawn (F := PrimFloat.float) size i) (i <? 3))
          (range 5).

Definition gradient_closed_form (size : Z) : bool :=
  forallb (fun y =>
             match gradient_color (F := PrimFloat.float) size y with
             | Ok (r, g, b) =>
                 (r =? 11 + 15 * y / size) && (b =? 31 + 15 * y / size)
                 && ((g =? 11) || ((g =? 10) && negb (y =? 0)))
             | Raise _ => false
             end)
          (range size).

(** The progress line of a density and of an iOS file, as the f-strings
    of the generators format them. *)
Definition android_line (bucket : string * Z) : string :=
  "Generated Android " +:+ fst bucket +:+ " icons ("
  +:+ str_int (snd bucket) +:+ "x" +:+ str_int (snd bucket) +:+ ")".

Definition ios_line (entry : string * Z) : string :=
  "Generated iOS icon " +:+ fst entry +:+ " ("
  +:+ str_int (snd entry) +:+ "x" +:+ str_int (snd entry) +:+ ")".

(** What the [try] body of [main] prints before its success lines. *)
Definition progress_lines : list string :=
  map android_line density_buckets ++ [""] ++ map ios_line ios_sizes.

Section Announcements.
Context {F : Type} `{PyFloat F} `{Pillow F}.

(** Each progress line with the files it reports. *)
Definition announcements : list (string * list (string * Image)) :=
  map (fun bucket => (android_line bucket, density_bitmaps bucket)) density_buckets
  ++ map (fun entry => (ios_line entry, [ios_bitmap entry])) ios_sizes.
End Announcements.

(** * Properties *)

(** ** Loops and lists *)

Lemma for_each_invariant {A S : Type} (P : S -> Prop) (xs : list A)
    (body : A -> S -> Exc S) :
  (forall x s, In x xs -> P s -> exists s', body x s = Ok s' /\ P s') ->
  forall s, P s -> exists s', for_each xs body s = Ok s' /\ P s'.
Proof.
  induction xs as [|x rest IH]; intros Hbody s Hs; simpl.
  - now exists s.
  - destruct (Hbody x s (or_introl eq_refl) Hs) as (s1 & E & H1).
    rewrite E; simpl. apply IH; [|exact H1].
    intros y t Hy. apply Hbody. now right.
Qed.

Lemma for_each_pure {A S : Type} (g : S -> A -> S) (xs : list A)
    (body : A -> S -> Exc S) :
  (forall x s, body x s = Ok (g s x)) ->
  forall s, for_each xs body s = Ok (fold_left g xs s).
Proof.
  intros Hbody. induction xs as [|x rest IH]; intros s; simpl; [reflexivity|].
  rewrite Hbody. simpl. apply IH.
Qed.



Lemma unique_by_path {A : Type} (l : list (string * A)) (p : string) (a b : A) :
  NoDup (map fst l) -> In (p, a) l -> In (p, b) l -> a = b.
Proof.
  induction l as [|[q c] l IH]; simpl; intros Hnd Ha Hb; [contradiction|].
  apply NoDup_cons in Hnd as [Hnotin Hnd].
  rewrite list_elem_of_In in Hnotin.
  destruct Ha as [[= -> ->]|Ha], Hb as [[= <-]|Hb]; try reflexivity.
  - exfalso. apply Hnotin. apply (in_map fst _ _ Hb).
  - exfalso. apply Hnotin. apply (in_map fst _ _ Ha).
  - now apply IH.
Qed.

Lemma prefix_In {A : Type} (a b : list A) (x : A) : a `prefix_of` b -> In x a -> In x b.
Proof. intros [k ->] Hx. apply in_or_app. now left. Qed.


(** ** Blending *)








(** The same three values in binary64, where each of them is exact. *)
Example blend_binary64_at_0 :
  blend_colors (F := PrimFloat.float) "#0B0B1F" "#1A0B2E" (of_int 0) = Ok (11, 11, 31).
Proof. vm_compute. reflexivity. Qed.

Example blend_binary64_at_1 :
  blend_colors (F := PrimFloat.float) "#0B0B1F" "#1A0B2E" (of_int 1) = Ok (26, 11, 46).
Proof. vm_compute. reflexivity. Qed.

Example blend_binary64_halfway :
  blend_colors (F := PrimFloat.float) "#000000" "#C8C8C8" (decimal 5 1)
  = Ok (100, 100, 100).
Proof. vm_compute. reflexivity. Qed.

(** The two arithmetics do not agree on every pixel.  Both palette colours
    have green 11, yet in row 1 of the 48 pixel gradient the float sum
    [11*(1-ratio) + 11*ratio] falls just under 11 and [int] makes it 10. *)
Example gradient_rounding :
  gradient_color (F := Q) 48 1 = Ok (11, 11, 31)
  /\ gradient_color (F := PrimFloat.float) 48 1 = Ok (11, 10, 31).
Proof. split; vm_compute; reflexivity. Qed.

(** ** Rendering *)



Lemma palette_background : palette "background" = Ok (11, 11, 31).
Proof. reflexivity. Qed.

Lemma palette_primary : palette "primary_neon" = Ok primary_neon.
Proof. reflexivity. Qed.

Lemma palette_secondary : palette "secondary_neon" = Ok (255, 20, 147).
Proof. reflexivity. Qed.

Lemma palette_accent : palette "accent_neon" = Ok (57, 255, 20).
Proof. reflexivity. Qed.

Lemma Image_new_ok (w h : Z) (ink : RGBA) :
  0 <= w -> 0 <= h -> Image_new (w, h) ink = Ok (mkImage (w, h) (fun _ _ => ink)).
Proof.
  intros Hw Hh. unfold Image_new; simpl.
  destruct (Z.ltb_spec w 0); [lia|]. destruct (Z.ltb_spec h 0); [lia|]. reflexivity.
Qed.

Lemma size_eqb_refl (a : Z * Z) : size_eqb a a = true.
Proof. unfold size_eqb. now rewrite !Z.eqb_refl. Qed.

Lemma Image_copy_id (img : Image) : Image_copy img = img.
Proof. now destruct img. Qed.

(** In every arithmetic and with every implementation of Pillow: what can
    raise in the renderer is the gradient loop, and no step changes the
    size of the canvas. *)
Section Rendering.
Context {F : Type} `{PyFloat F} `{Pillow F}.

Lemma gradient_row_size (size y : Z) (img : Image) :
  (exists c, gradient_color size y = Ok c) ->
  exists img', gradient_row size y img = Ok img' /\ im_size img' = im_size img.
Proof.
  intros [c E]. unfold gradient_row. rewrite E. cbn [ebind].
  eexists. split; reflexivity.
Qed.

Lemma particle_size (size center_y : Z) (body_left bird_size : F) (i : Z) (img : Image) :
  exists img',
    particle size center_y body_left bird_size i img = Ok img'
    /\ im_size img' = im_size img.
Proof.
  unfold particle.
  destruct (fgt _ _).
  - rewrite palette_primary. cbn [ebind]. eexists. split; reflexivity.
  - eexists. split; reflexivity.
Qed.

Lemma apply_glow_effect_ok (img : Image) :
  0 <= fst (im_size img) -> 0 <= snd (im_size img) ->
  apply_glow_effect img
  = Ok (mkImage (im_size img)
          (fun x y =>
             alpha_over
               (alpha_over transparent (gaussian_blur 3 (Image_copy img) x y))
               (getpixel img x y))).
Proof.
  intros Hw Hh. unfold apply_glow_effect.
  destruct (im_size img) as [w h] eqn:E. simpl in Hw, Hh.
  rewrite Image_new_ok by assumption. cbn [ebind].
  unfold alpha_composite, filter_GaussianBlur, Image_copy. cbn [im_size getpixel].
  rewrite E, size_eqb_refl. cbn [ebind im_size getpixel].
  rewrite size_eqb_refl. reflexivity.
Qed.

Lemma create_neon_bird_icon_renders (size : Z) :
  0 <= size -> renders size ->
  exists img, create_neon_bird_icon size = Ok img /\ im_size img = (size, size).
Proof.
  intros Hs Hrows. unfold create_neon_bird_icon.
  rewrite Image_new_ok by assumption. cbn [ebind].
  destruct (for_each_invariant (fun im => im_size im = (size, size))
              (range size) (gradient_row size)) with
    (s := mkImage (size, size) (fun _ _ => ink_rgba (0, 0, 0, 0)))
    as (img1 & E1 & S1); [|reflexivity|].
  { intros y im Hy Him.
    destruct (gradient_row_size size y im (Hrows y Hy)) as (im' & E & S).
    exists im'. split; [exact E|]. now rewrite S. }
  rewrite E1. cbn [ebind].
  rewrite palette_primary, palette_secondary, palette_accent. cbn [ebind].
  match goal with
  | |- context [for_each (range 5) (particle ?a ?b ?c ?d) ?start] =>
      destruct (for_each_invariant (fun im => im_size im = (size, size))
                  (range 5) (particle a b c d)) with (s := start)
        as (img2 & E2 & S2)
  end.
  { intros i im _ Him.
    match goal with
    | |- context [particle ?a ?b ?c ?d i im] =>
        destruct (particle_size a b c d i im) as (im' & E & S)
    end.
    exists im'. split; [exact E|]. now rewrite S. }
  { exact S1. }
  rewrite E2. cbn [ebind].
  rewrite apply_glow_effect_ok by (rewrite S2; simpl; lia).
  cbn [ebind]. eexists. split; [reflexivity|]. exact S2.
Qed.

Lemma rows_ok_renders (size : Z) : rows_ok size = true -> renders size.
Proof.
  unfold rows_ok, renders. rewrite forallb_forall. intros Hall y Hy.
  specialize (Hall y Hy). destruct (gradient_color size y) as [c|e]; [|discriminate].
  now exists c.
Qed.

(** Claim C3.  [apply_glow_effect] duplicates the canvas, blurs the
    duplicate with radius 3, and composites in this order: onto a fully
    transparent canvas of the same size goes the blurred copy, and onto the
    result goes the original image. *)
Theorem apply_glow_effect_composites (img : Image)
    (Hw : 0 <= fst (im_size img)) (Hh : 0 <= snd (im_size img)) :
  exists base under result,
    let duplicate := Image_copy img in
    let blurred := filter_GaussianBlur 3 duplicate in
    duplicate = img
    /\ Image_new (im_size img) transparent = Ok base
    /\ (forall x y, getpixel base x y = transparent)
    /\ alpha_composite base blurred = Ok under
    /\ alpha_composite under img = Ok result
    /\ apply_glow_effect img = Ok result
    /\ im_size result = im_size img
    /\ forall x y,
         getpixel result x y
         = alpha_over (alpha_over transparent (gaussian_blur 3 img x y))
                      (getpixel img x y).
Proof.
  destruct img as [[w h] px]. simpl in Hw, Hh.
  eexists _, _, _. cbn zeta.
  split; [reflexivity|].
  split; [cbn [im_size]; apply Image_new_ok; assumption|].
  split; [reflexivity|].
  split; [unfold alpha_composite; cbn [im_size filter_GaussianBlur Image_copy];
          rewrite size_eqb_refl; reflexivity|].
  split; [unfold alpha_composite; cbn [im_size]; rewrite size_eqb_refl; reflexivity|].
  split; [rewrite apply_glow_effect_ok by assumption; reflexivity|].
  split; reflexivity.
Qed.
End Rendering.


(** Binary64 renders at each size of the tables: every conversion of the
    gradient loop is carried out. *)
Lemma renders_binary64 (size : Z) :
  In size table_sizes -> renders (F := PrimFloat.float) size.
Proof.
  intros Hin. apply rows_ok_renders.
  assert (forallb (rows_ok (F := PrimFloat.float)) table_sizes = true) as Hall
    by (vm_compute; reflexivity).
  rewrite forallb_forall in Hall. now apply Hall.
Qed.

Lemma table_sizes_nonneg (size : Z) : In size table_sizes -> 0 <= size.
Proof.
  intros Hin.
  assert (forallb (fun s => 0 <=? s) table_sizes = true) as Hall by reflexivity.
  rewrite forallb_forall in Hall. apply Z.leb_le. now apply Hall.
Qed.

Section RenderingQ.
Context `{Pillow Q}.

End RenderingQ.

Section RenderingBinary64.
Context `{Pillow PrimFloat.float}.

(** Property X1.  In binary64, at every size of the Android and iOS
    tables, [create_neon_bird_icon] raises nothing and returns a bitmap of
    that size. *)
Theorem create_neon_bird_icon_binary64 (size : Z) (Hin : In size table_sizes) :
  exists img, create_neon_bird_icon size = Ok img /\ im_size img = (size, size).
Proof.
  apply create_neon_bird_icon_renders;
    [now apply table_sizes_nonneg|now apply renders_binary64].
Qed.
End RenderingBinary64.

(** ** The particle trail *)




Section TrailProofs.
Context `{Pillow Q}.


End TrailProofs.

(** ** Runs *)

Lemma saved_app (a b : list Event) : saved (a ++ b) = saved a ++ saved b.
Proof. apply flat_map_app. Qed.

Lemma created_app (a b : list Event) : created (a ++ b) = created a ++ created b.
Proof. apply flat_map_app. Qed.


Lemma prefix_saved (a b : list Event) : a `prefix_of` b -> saved a `prefix_of` saved b.
Proof. intros [k ->]. exists (saved k). apply saved_app. Qed.


Lemma effects_of_trace {W A : Type} (c : IO W A) (s : State W) (done : list Event) :
  trace (snd (c s)) = trace s ++ done -> effects c s = done.
Proof. intros E. unfold effects. rewrite E. apply drop_app_length. Qed.

(** Whatever the operating system answers. *)
Section Runs.
Context {W : Type} `{OS W}.

Lemma perform_all_app (a b : list Event) (s : State W) :
  perform_all (a ++ b) s = (perform_all a ;; perform_all b)%io s.
Proof.
  revert s. induction a as [|ev a IH]; intros s; simpl.
  - reflexivity.
  - unfold bind. destruct (perform ev s) as [[[]|e] s1]; [|reflexivity].
    rewrite IH. reflexivity.
Qed.

Lemma io_for_each_plan {A : Type} (plan : A -> list Event) (xs : list A)
    (body : A -> IO W unit) :
  (forall x, In x xs -> forall s, body x s = perform_all (plan x) s) ->
  forall s, io_for_each xs body s = perform_all (flat_map plan xs) s.
Proof.
  induction xs as [|x rest IH]; intros Hbody s; simpl; [reflexivity|].
  rewrite perform_all_app. unfold bind.
  rewrite (Hbody x (or_introl eq_refl)).
  destruct (perform_all (plan x) s) as [[[]|e] s1]; [|reflexivity].
  apply IH. intros y Hy. apply Hbody. now right.
Qed.

(** One step of a plan: it is done and logged, or the operating system
    raised and nothing is logged. *)
Lemma perform_step (ev : Event) (s : State W) :
  (exists s1, perform ev s = (Ok tt, s1) /\ trace s1 = trace s ++ [ev])
  \/ (exists e s1, perform ev s = (Raise e, s1) /\ trace s1 = trace s /\ os_raised e).
Proof.
  destruct ev as [path|path img|line]; simpl.
  - unfold makedirs. destruct (os_makedirs path (world s)) as [[[]|e] w] eqn:E.
    + left. eexists. split; reflexivity.
    + right. exists e. eexists. split; [reflexivity|]. split; [reflexivity|].
      left. exists path, (world s). now rewrite E.
  - unfold save. destruct (os_write path img (world s)) as [[[]|e] w] eqn:E.
    + left. eexists. split; reflexivity.
    + right. exists e. eexists. split; [reflexivity|]. split; [reflexivity|].
      right. exists path, img, (world s). now rewrite E.
  - left. eexists. split; reflexivity.
Qed.

(** A run of a plan completes a prefix of it, in order, and stops short
    only where the operating system raised. *)
Lemma perform_all_run (plan : list Event) (s : State W) :
  exists done rest,
    plan = done ++ rest
    /\ trace (snd (perform_all plan s)) = trace s ++ done
    /\ match fst (perform_all plan s) with
       | Ok _ => rest = []
       | Raise e => rest <> [] /\ os_raised e
       end.
Proof.
  revert s. induction plan as [|ev plan IH]; intros s.
  - exists [], []. simpl. rewrite app_nil_r. auto.
  - destruct (perform_step ev s) as [(s1 & E & T)|(e & s1 & E & T & R)].
    + destruct (IH s1) as (done & rest & -> & Ht & Hr).
      exists (ev :: done), rest. simpl. unfold bind. rewrite E.
      split; [reflexivity|]. split; [|exact Hr].
      rewrite Ht, T, <- app_assoc. reflexivity.
    + exists [], (ev :: plan). simpl. unfold bind. rewrite E. simpl.
      rewrite app_nil_r. repeat split; [exact T|discriminate|exact R].
Qed.

Lemma effects_trace (plan : list Event) (c : IO W unit) (s : State W) :
  (forall s', c s' = perform_all plan s') ->
  trace (snd (c s)) = trace s ++ effects c s.
Proof.
  intros Hc. destruct (perform_all_run plan s) as (done & rest & _ & Ht & _).
  rewrite <- Hc in Ht. now rewrite (effects_of_trace c s done Ht).
Qed.

(** A program that runs a plan: what it adds to the trace is a prefix of
    the plan, the whole of it when it returns, and it raises only what
    the operating system raised. *)
Lemma run_outcome (plan : list Event) (c : IO W unit) (s : State W) :
  (forall s', c s' = perform_all plan s') ->
  effects c s `prefix_of` plan
  /\ match fst (c s) with
     | Ok _ => effects c s = plan
     | Raise e => os_raised e /\ effects c s <> plan
     end.
Proof.
  intros Hc. destruct (perform_all_run plan s) as (done & rest & -> & Ht & Hr).
  rewrite <- Hc in Ht, Hr. rewrite (effects_of_trace c s done Ht).
  split; [now exists rest|].
  destruct (fst (c s)) as [[]|e].
  - subst rest. now rewrite app_nil_r.
  - destruct Hr as [Hne Hos]. split; [exact Hos|].
    intros E. apply Hne. rewrite <- (app_nil_r done) in E at 1.
    now apply app_inv_head in E.
Qed.
End Runs.

(** ** The generator

    What follows is proved in binary64, the arithmetic of the script, for
    every implementation of Pillow and of the operating system.  The
    renderer is needed at the sizes of the two tables only. *)

Section Generation.
Context `{Pillow PrimFloat.float} {W : Type} `{OS W}.

Lemma rendered_ok (size : Z) :
  In size table_sizes ->
  create_neon_bird_icon size = Ok (rendered size)
  /\ im_size (rendered size) = (size, size).
Proof.
  intros Hin. destruct (create_neon_bird_icon_binary64 size Hin) as (img & E & S).
  unfold rendered. rewrite E. now split.
Qed.

Lemma android_table (entry : string * Z) :
  In entry android_sizes -> In (snd entry) table_sizes.
Proof. intros Hin. apply in_map, in_or_app. now left. Qed.

Lemma ios_table (entry : string * Z) :
  In entry ios_sizes -> In (snd entry) table_sizes.
Proof. intros Hin. apply in_map, in_or_app. now right. Qed.

Lemma android_density_plan (entry : string * Z) :
  In entry android_sizes ->
  forall s : State W, android_density entry s = perform_all (density_plan entry) s.
Proof.
  intros Hin s. pose proof (android_table entry Hin) as Ht.
  destruct entry as [density size]; simpl in Ht.
  unfold android_density, density_plan, density_files.
  destruct (rendered_ok size Ht) as [-> _].
  generalize (rendered size); intros icon.
  simpl in Hin.
  repeat (destruct Hin as [[= <- <-]|Hin]; [reflexivity|]). contradiction.
Qed.

Lemma generate_android_icons_plan (s : State W) :
  generate_android_icons s = perform_all android_plan s.
Proof.
  unfold generate_android_icons, android_plan.
  exact (io_for_each_plan density_plan android_sizes android_density
           android_density_plan s).
Qed.

Lemma ios_icon_plan (entry : string * Z) :
  In entry ios_sizes ->
  forall s : State W, ios_icon entry s = perform_all (ios_entry_plan entry) s.
Proof.
  intros Hin s. pose proof (ios_table entry Hin) as Ht.
  destruct entry as [filename size]; simpl in Ht.
  unfold ios_icon.
  destruct (rendered_ok size Ht) as [-> _]. reflexivity.
Qed.

Lemma generate_ios_icons_plan (s : State W) :
  generate_ios_icons s = perform_all ios_plan s.
Proof.
  unfold generate_ios_icons, ios_plan.
  exact (io_for_each_plan ios_entry_plan ios_sizes ios_icon ios_icon_plan s).
Qed.

Lemma generate_all_plan (s : State W) :
  generate_all s = perform_all all_plan s.
Proof.
  unfold generate_all, all_plan.
  rewrite perform_all_app. unfold bind at 1 6.
  rewrite generate_android_icons_plan.
  destruct (perform_all android_plan s) as [[[]|e] s1]; [|reflexivity].
  change (perform_all ([Printed ""] ++ ios_plan ++ success_lines) s1)
    with ((print "" ;; perform_all (ios_plan ++ success_lines))%io s1).
  unfold bind at 1 5. destruct (print "" s1) as [[[]|e] s2]; [|reflexivity].
  rewrite perform_all_app. unfold bind at 1 4.
  rewrite generate_ios_icons_plan.
  destruct (perform_all ios_plan s2) as [[[]|e] s3]; reflexivity.
Qed.

Lemma android_outcome (s : State W) :
  effects generate_android_icons s `prefix_of` android_plan
  /\ match fst (generate_android_icons s) with
     | Ok _ => effects generate_android_icons s = android_plan
     | Raise e => os_raised e /\ effects generate_android_icons s <> android_plan
     end.
Proof. apply run_outcome, generate_android_icons_plan. Qed.


Lemma all_outcome (s : State W) :
  effects generate_all s `prefix_of` all_plan
  /\ match fst (generate_all s) with
     | Ok _ => effects generate_all s = all_plan
     | Raise e => os_raised e /\ effects generate_all s <> all_plan
     end.
Proof. apply run_outcome, generate_all_plan. Qed.


Lemma android_paths_distinct :
  NoDup (map fst (flat_map density_bitmaps density_buckets)).
Proof.
  change (map fst (flat_map density_bitmaps density_buckets)) with android_paths.
  apply (bool_decide_unpack _). vm_compute. exact I.
Qed.

Lemma android_saved (s : State W) (path : string) (img : Image) :
  In (path, img) (saved (effects generate_android_icons s)) ->
  In (path, img) (flat_map density_bitmaps density_buckets).
Proof.
  apply prefix_In.
  change (flat_map density_bitmaps density_buckets) with (saved android_plan).
  apply prefix_saved, android_outcome.
Qed.

Lemma android_completed_saved (s : State W) :
  fst (generate_android_icons s) = Ok tt ->
  saved (effects generate_android_icons s) = flat_map density_bitmaps density_buckets.
Proof.
  intros E. pose proof (proj2 (android_outcome s)) as O. rewrite E in O.
  now rewrite O.
Qed.

Lemma bucket_bitmaps (bucket : string * Z) :
  In bucket density_buckets ->
  forall file, In file (density_bitmaps bucket) ->
               In file (flat_map density_bitmaps density_buckets).
Proof. intros Hb file Hf. apply in_flat_map. now exists bucket. Qed.



(** Claim C9.  For every density, the bitmap written to
    [ic_launcher_background.png] is what [Image.new] returns for the
    background colour of the palette: [size] x [size], every pixel that
    colour at full alpha, and nothing drawn on it. *)
Theorem background_is_flat_fill (s : State W) (density : string) (size : Z) (bg : Image)
    (Hbucket : In (density, size) density_buckets)
    (Hsaved : In (mipmap density +:+ "/ic_launcher_background.png", bg)
                 (saved (effects generate_android_icons s))) :
  (fill <- palette "background" ;; Image_new (size, size) (ink_rgb fill))%exc = Ok bg
  /\ bg = flat size background_rgba
  /\ im_size bg = (size, size)
  /\ forall x y, getpixel bg x y = background_rgba.
Proof.
  assert (bg = flat size background_rgba) as ->.
  { apply (unique_by_path _ _ _ _ android_paths_distinct (android_saved s _ _ Hsaved)).
    apply (bucket_bitmaps (density, size) Hbucket). simpl. auto. }
  split; [|repeat split].
  rewrite palette_background. cbn [ebind].
  pose proof (table_sizes_nonneg size (android_table (density, size) Hbucket)) as Hs.
  now rewrite Image_new_ok.
Qed.

(** Claim C10.  For every density, the bitmaps written to
    [ic_launcher_foreground.png] and to [ic_launcher.png] in one run of
    the Android generation are the same: each is what
    [create_neon_bird_icon] returns at the size of the density. *)
Theorem foreground_equals_launcher (s : State W) (density : string) (size : Z)
    (icon fg : Image)
    (Hbucket : In (density, size) density_buckets)
    (Hicon : In (mipmap density +:+ "/ic_launcher.png", icon)
                (saved (effects generate_android_icons s)))
    (Hfg : In (mipmap density +:+ "/ic_launcher_foreground.png", fg)
              (saved (effects generate_android_icons s))) :
  fg = icon
  /\ create_neon_bird_icon size = Ok icon
  /\ create_neon_bird_icon size = Ok fg.
Proof.
  pose proof (rendered_ok size (android_table (density, size) Hbucket)) as [E _].
  assert (icon = rendered size) as ->.
  { apply (unique_by_path _ _ _ _ android_paths_distinct (android_saved s _ _ Hicon)).
    apply (bucket_bitmaps (density, size) Hbucket). simpl. auto. }
  assert (fg = rendered size) as ->.
  { apply (unique_by_path _ _ _ _ android_paths_distinct (android_saved s _ _ Hfg)).
    apply (bucket_bitmaps (density, size) Hbucket). simpl. auto. }
  split; [reflexivity|]. split; exact E.
Qed.

(** *** [main] *)

Lemma main_enters_try (s : State W) :
  main s = try_except generate_all report_failure (after_banner s).
Proof.
  unfold main, bind, print, emit, after_banner, banner. simpl.
  now rewrite <- app_assoc.
Qed.

Lemma report_failure_run (e : PyExc) (s : State W) :
  report_failure e s = (Ok tt, mkState (world s) (trace s ++ failure_lines e)).
Proof.
  unfold report_failure, bind, print, emit, failure_lines. simpl.
  now rewrite <- app_assoc.
Qed.

(** What [main] adds to the trace: the banner, what the generation got
    done, and the two failure lines when an [Exception] was caught. *)
Lemma main_effects (s : State W) :
  effects main s
  = banner ++ effects generate_all (after_banner s)
    ++ match fst (generate_all (after_banner s)) with
       | Ok _ => []
       | Raise e => if is_Exception e then failure_lines e else []
       end.
Proof.
  apply effects_of_trace. rewrite main_enters_try. unfold try_except.
  pose proof (effects_trace all_plan generate_all (after_banner s) generate_all_plan) as Ht.
  destruct (generate_all (after_banner s)) as [[[]|e] s1]; cbn [fst snd] in *.
  - rewrite Ht, app_nil_r, app_assoc. reflexivity.
  - destruct (is_Exception e).
    + rewrite report_failure_run. cbn [snd trace]. rewrite Ht, !app_assoc. reflexivity.
    + cbn [snd]. rewrite Ht, app_nil_r, app_assoc. reflexivity.
Qed.

Lemma main_saved (s : State W) :
  saved (effects main s) = saved (effects generate_all (after_banner s)).
Proof.
  rewrite main_effects, !saved_app. simpl.
  destruct (fst (generate_all (after_banner s))) as [[]|e];
    [|destruct (is_Exception e)]; simpl; now rewrite app_nil_r.
Qed.



(** An exception that is no [Exception] leaves [main] as it was raised. *)
Lemma main_lets_base_exceptions_through (s s1 : State W) (e : PyExc) :
  generate_all (after_banner s) = (Raise e, s1) ->
  is_Exception e = false ->
  main s = (Raise e, s1).
Proof.
  intros Hraise Hclass. rewrite main_enters_try. unfold try_except.
  now rewrite Hraise, Hclass.
Qed.

(** A run that meets no exception ends with the success lines. *)
Lemma main_completes (s : State W) :
  completes s ->
  fst (main s) = Ok tt /\ effects main s = banner ++ all_plan.
Proof.
  unfold completes. intros C. split.
  - rewrite main_enters_try. unfold try_except.
    destruct (generate_all (after_banner s)) as [[[]|e] s1]; [reflexivity|discriminate].
  - rewrite main_effects, C, app_nil_r.
    pose proof (proj2 (all_outcome (after_banner s))) as O. rewrite C in O.
    now rewrite O.
Qed.
End Generation.

(** * Beyond the specification

    Properties of the script that its specification does not state. *)

(** ** [hex_to_rgb] *)

Lemma hex_digit_char (c : ascii) (d : Z) :
  hex_digit c = Some d ->
  0 <= d <= 15
  /\ is_space c = false
  /\ Ascii.eqb c "-" = false
  /\ Ascii.eqb c "+" = false
  /\ Ascii.eqb c "#" = false.
Proof.
  destruct c as [[] [] [] [] [] [] [] []]; vm_compute; intros E;
    first [discriminate E | injection E as <-; repeat split; discriminate].
Qed.

Lemma hex_digit_range (c : ascii) (d : Z) : hex_digit c = Some d -> 0 <= d <= 15.
Proof. intros E. apply (hex_digit_char c d E). Qed.

Lemma lstrip_hash_repeat (n : nat) (s : string) :
  lstrip_hash (str_repeat "#" n +:+ s) = lstrip_hash s.
Proof. induction n as [|n IH]; simpl; [reflexivity|exact IH]. Qed.

Lemma int16_two_digits (a b : ascii) (da db : Z) :
  hex_digit a = Some da -> hex_digit b = Some db ->
  int16 (String a (String b EmptyString)) = Ok (16 * da + db).
Proof.
  intros Ha Hb.
  destruct (hex_digit_char a da Ha) as (_ & Sa & Ma & Pa & _).
  destruct (hex_digit_char b db Hb) as (_ & Sb & _).
  unfold int16. cbn [lstrip_space rstrip_space]. rewrite Sa.
  cbn [rstrip_space]. rewrite Sb, Ma, Pa.
  cbn [hex_digits]. rewrite Ha, Hb. reflexivity.
Qed.

Lemma substring_0_0 (s : string) : substring 0 0 s = EmptyString.
Proof. now destruct s. Qed.

Lemma substring_short (s : string) (i m : nat) :
  (String.length s <= i)%nat -> substring i m s = EmptyString.
Proof.
  revert i. induction s as [|c s IH]; intros i Hl.
  - destruct i, m; reflexivity.
  - destruct i as [|i]; simpl in Hl; [lia|]. simpl. apply IH. lia.
Qed.

Lemma substring_length (s : string) (i m : nat) :
  (String.length (substring i m s) <= m)%nat.
Proof.
  revert i m. induction s as [|c s IH]; intros i m.
  - destruct i, m; simpl; lia.
  - destruct i as [|i]; simpl.
    + destruct m as [|m]; simpl; [lia|]. specialize (IH 0%nat m). lia.
    + apply IH.
Qed.

Lemma hex_to_rgb_digits (n : nat) (c1 c2 c3 c4 c5 c6 : ascii) (d1 d2 d3 d4 d5 d6 : Z)
    (rest : string) :
  hex_digit c1 = Some d1 -> hex_digit c2 = Some d2 -> hex_digit c3 = Some d3 ->
  hex_digit c4 = Some d4 -> hex_digit c5 = Some d5 -> hex_digit c6 = Some d6 ->
  hex_to_rgb (str_repeat "#" n
              +:+ String c1 (String c2 (String c3 (String c4 (String c5 (String c6 rest))))))
  = Ok (16 * d1 + d2, 16 * d3 + d4, 16 * d5 + d6).
Proof.
  intros H1 H2 H3 H4 H5 H6. unfold hex_to_rgb.
  rewrite lstrip_hash_repeat. cbn [lstrip_hash].
  destruct (hex_digit_char c1 d1 H1) as (_ & _ & _ & _ & ->).
  unfold slice2. cbn [substring]. rewrite substring_0_0.
  rewrite (int16_two_digits c1 c2 d1 d2 H1 H2),
          (int16_two_digits c3 c4 d3 d4 H3 H4),
          (int16_two_digits c5 c6 d5 d6 H5 H6).
  reflexivity.
Qed.

(** Property X2.  Six hexadecimal digits, of either case, read as three
    bytes: [hex_to_rgb] drops every leading ['#'], however many, takes the
    digits two by two as red, green and blue, each in 0..255, and ignores
    whatever follows the sixth digit. *)
Theorem hex_to_rgb_reads_six_digits
    (n : nat) (c1 c2 c3 c4 c5 c6 : ascii) (d1 d2 d3 d4 d5 d6 : Z) (rest : string)
    (H1 : hex_digit c1 = Some d1) (H2 : hex_digit c2 = Some d2)
    (H3 : hex_digit c3 = Some d3) (H4 : hex_digit c4 = Some d4)
    (H5 : hex_digit c5 = Some d5) (H6 : hex_digit c6 = Some d6) :
  hex_to_rgb (str_repeat "#" n
              +:+ String c1 (String c2 (String c3 (String c4 (String c5 (String c6 rest))))))
  = Ok (16 * d1 + d2, 16 * d3 + d4, 16 * d5 + d6)
  /\ is_byte (16 * d1 + d2) /\ is_byte (16 * d3 + d4) /\ is_byte (16 * d5 + d6).
Proof.
  split; [now apply hex_to_rgb_digits|].
  apply hex_digit_range in H1, H2, H3, H4, H5, H6.
  unfold is_byte. lia.
Qed.

Lemma hex_to_rgb_reads_six_digits_witness :
  hex_to_rgb "##39ff14cc" = Ok (16 * 3 + 9, 16 * 15 + 15, 16 * 1 + 4)
  /\ is_byte (16 * 3 + 9) /\ is_byte (16 * 15 + 15) /\ is_byte (16 * 1 + 4).
Proof.
  apply (hex_to_rgb_reads_six_digits 2 "3" "9" "f" "f" "1" "4" 3 9 15 15 1 4 "cc");
    reflexivity.
Defined.

Lemma hex_char_digit (upper : bool) (d : Z) :
  0 <= d <= 15 -> hex_digit (hex_char upper d) = Some d.
Proof.
  intros Hd.
  assert (In d (range 16)) as Hin.
  { unfold range. apply in_map_iff. exists (Z.to_nat d). split; [lia|].
    apply in_seq. lia. }
  assert (forallb (fun d => bool_decide (hex_digit (hex_char upper d) = Some d)) (range 16)
          = true) as Hall by (destruct upper; vm_compute; reflexivity).
  rewrite forallb_forall in Hall. apply (bool_decide_eq_true_1 _), Hall, Hin.
Qed.

Lemma hex_byte_digits (upper : bool) (v : Z) :
  is_byte v ->
  hex_digit (hex_char upper (v / 16)) = Some (v / 16)
  /\ hex_digit (hex_char upper (v mod 16)) = Some (v mod 16).
Proof.
  unfold is_byte. intros Hv. split; apply hex_char_digit.
  - split; [apply Z.div_pos; lia|].
    assert (v / 16 < 16) by (apply Z.div_lt_upper_bound; lia). lia.
  - pose proof (Z.mod_pos_bound v 16). lia.
Qed.

(** Property X3.  Decoding after encoding gives the colour back: for
    bytes [r], [g], [b], [hex_to_rgb] of ['#' * n + '%02X%02X%02X' % (r, g,
    b) + rest], in upper or in lower case, is [(r, g, b)]. *)
Theorem hex_to_rgb_round_trip (n : nat) (upper : bool) (r g b : Z) (rest : string)
    (Hr : is_byte r) (Hg : is_byte g) (Hb : is_byte b) :
  hex_to_rgb (str_repeat "#" n +:+ hex_code upper (r, g, b) +:+ rest) = Ok (r, g, b).
Proof.
  destruct (hex_byte_digits upper r Hr) as [R1 R2].
  destruct (hex_byte_digits upper g Hg) as [G1 G2].
  destruct (hex_byte_digits upper b Hb) as [B1 B2].
  change (hex_code upper (r, g, b) +:+ rest)
    with (String (hex_char upper (r / 16)) (String (hex_char upper (r mod 16))
         (String (hex_char upper (g / 16)) (String (hex_char upper (g mod 16))
         (String (hex_char upper (b / 16)) (String (hex_char upper (b mod 16)) rest)))))).
  rewrite (hex_to_rgb_digits n _ _ _ _ _ _ _ _ _ _ _ _ rest R1 R2 G1 G2 B1 B2).
  rewrite <- !Z.div_mod by lia. reflexivity.
Qed.

Lemma hex_to_rgb_round_trip_witness :
  hex_to_rgb ("#" +:+ hex_code true (255, 20, 147) +:+ "") = Ok (255, 20, 147).
Proof.
  apply (hex_to_rgb_round_trip 1 true 255 20 147 ""); unfold is_byte; lia.
Defined.

Lemma int16_error (s : string) (e : PyExc) :
  int16 s = Raise e ->
  e = mkExc ValueError ("invalid literal for int() with base 16: '" +:+ s +:+ "'").
Proof.
  unfold int16. intros E.
  destruct (rstrip_space (lstrip_space s)) as [|c rest]; [congruence|].
  destruct (Ascii.eqb c "-"); [|destruct (Ascii.eqb c "+")].
  - destruct rest; [congruence|]. destruct (hex_digits 0 _); congruence.
  - destruct rest; [congruence|]. destruct (hex_digits 0 _); congruence.
  - destruct (hex_digits 0 _); congruence.
Qed.

(** Property X4.  A colour string with fewer than five characters after
    its leading ['#'] is refused: the slice of the blue channel is empty
    and [int] raises [ValueError].  The three-digit shorthand ['#FFF'] is
    one such string. *)
Theorem hex_to_rgb_short_input (hex_color : string)
    (Hshort : (String.length (lstrip_hash hex_color) <= 4)%nat) :
  exists e, hex_to_rgb hex_color = Raise e /\ exc_class e = ValueError.
Proof.
  unfold hex_to_rgb, slice2.
  rewrite (substring_short _ 4 2 Hshort).
  destruct (int16 (substring 0 2 _)) as [r|e] eqn:Er; cbn [ebind].
  - destruct (int16 (substring 2 2 _)) as [g|e] eqn:Eg; cbn [ebind].
    + eexists. split; reflexivity.
    + exists e. split; [reflexivity|]. now rewrite (int16_error _ _ Eg).
  - exists e. split; [reflexivity|]. now rewrite (int16_error _ _ Er).
Qed.

Lemma hex_to_rgb_short_input_witness :
  exists e, hex_to_rgb "#FFF" = Raise e /\ exc_class e = ValueError.
Proof. apply (hex_to_rgb_short_input "#FFF"). simpl. lia. Defined.

Lemma int16_one_digit (a : ascii) (da : Z) :
  hex_digit a = Some da -> int16 (String a EmptyString) = Ok da.
Proof.
  intros Ha. destruct (hex_digit_char a da Ha) as (_ & Sa & Ma & Pa & _).
  unfold int16. cbn [lstrip_space rstrip_space]. rewrite Sa.
  cbn [rstrip_space]. rewrite Sa, Ma, Pa. cbn [hex_digits]. now rewrite Ha.
Qed.

(** Property X21.  Five hexadecimal digits are accepted: the slice of
    the blue channel then holds one digit, and [hex_to_rgb] returns a blue
    channel of that one digit, below 16, without any error. *)
Theorem hex_to_rgb_five_digits (n : nat) (c1 c2 c3 c4 c5 : ascii) (d1 d2 d3 d4 d5 : Z)
    (H1 : hex_digit c1 = Some d1) (H2 : hex_digit c2 = Some d2)
    (H3 : hex_digit c3 = Some d3) (H4 : hex_digit c4 = Some d4)
    (H5 : hex_digit c5 = Some d5) :
  hex_to_rgb (str_repeat "#" n
              +:+ String c1 (String c2 (String c3 (String c4 (String c5 EmptyString)))))
  = Ok (16 * d1 + d2, 16 * d3 + d4, d5)
  /\ 0 <= d5 <= 15.
Proof.
  split; [|exact (hex_digit_range c5 d5 H5)].
  unfold hex_to_rgb. rewrite lstrip_hash_repeat. cbn [lstrip_hash].
  destruct (hex_digit_char c1 d1 H1) as (_ & _ & _ & _ & ->).
  unfold slice2. cbn [substring].
  rewrite (int16_two_digits c1 c2 d1 d2 H1 H2),
          (int16_two_digits c3 c4 d3 d4 H3 H4),
          (int16_one_digit c5 d5 H5).
  reflexivity.
Qed.

Lemma hex_to_rgb_five_digits_witness :
  hex_to_rgb "#12345" = Ok (16 * 1 + 2, 16 * 3 + 4, 5) /\ 0 <= 5 <= 15.
Proof.
  apply (hex_to_rgb_five_digits 1 "1" "2" "3" "4" "5" 1 2 3 4 5); reflexivity.
Defined.

Lemma int16_range (s : string) (z : Z) :
  (String.length s <= 2)%nat -> int16 s = Ok z -> -15 <= z <= 255.
Proof.
  intros Hl. destruct s as [|a [|b [|c s]]]; simpl in Hl; try lia; clear Hl;
    unfold int16; cbn [lstrip_space rstrip_space].
  - discriminate.
  - destruct (is_space a); cbn [rstrip_space]; [discriminate|].
    destruct (is_space a); [discriminate|].
    destruct (Ascii.eqb a "-"); [discriminate|].
    destruct (Ascii.eqb a "+"); [discriminate|].
    cbn [hex_digits]. destruct (hex_digit a) as [d|] eqn:Ea; [|discriminate].
    intros [= <-]. apply hex_digit_range in Ea. lia.
  - destruct (is_space a) eqn:Sa; cbn [rstrip_space].
    + destruct (is_space b) eqn:Sb; cbn [rstrip_space]; [discriminate|].
      rewrite Sb.
      destruct (Ascii.eqb b "-"); [discriminate|].
      destruct (Ascii.eqb b "+"); [discriminate|].
      cbn [hex_digits]. destruct (hex_digit b) as [d|] eqn:Eb; [|discriminate].
      intros [= <-]. apply hex_digit_range in Eb. lia.
    + destruct (is_space b) eqn:Sb; cbn [rstrip_space].
      * rewrite Sa.
        destruct (Ascii.eqb a "-"); [discriminate|].
        destruct (Ascii.eqb a "+"); [discriminate|].
        cbn [hex_digits]. destruct (hex_digit a) as [d|] eqn:Ea; [|discriminate].
        intros [= <-]. apply hex_digit_range in Ea. lia.
      * destruct (Ascii.eqb a "-"); [|destruct (Ascii.eqb a "+")]; cbn [hex_digits].
        -- destruct (hex_digit b) as [d|] eqn:Eb; [|discriminate].
           intros [= <-]. apply hex_digit_range in Eb. lia.
        -- destruct (hex_digit b) as [d|] eqn:Eb; [|discriminate].
           intros [= <-]. apply hex_digit_range in Eb. lia.
        -- destruct (hex_digit a) as [da|] eqn:Ea; [|discriminate].
           destruct (hex_digit b) as [db|] eqn:Eb; [|discriminate].
           intros [= <-]. apply hex_digit_range in Ea, Eb. lia.
Qed.

Lemma hex_to_rgb_range (hex_color : string) (r g b : Z) :
  hex_to_rgb hex_color = Ok (r, g, b) ->
  -15 <= r <= 255 /\ -15 <= g <= 255 /\ -15 <= b <= 255.
Proof.
  unfold hex_to_rgb.
  destruct (int16 (slice2 _ 0)) as [r'|e] eqn:Er; cbn [ebind]; [|discriminate].
  destruct (int16 (slice2 _ 2)) as [g'|e] eqn:Eg; cbn [ebind]; [|discriminate].
  destruct (int16 (slice2 _ 4)) as [b'|e] eqn:Eb; cbn [ebind]; [|discriminate].
  intros [= <- <- <-].
  pose proof (int16_range _ _ (substring_length _ _ _) Er).
  pose proof (int16_range _ _ (substring_length _ _ _) Eg).
  pose proof (int16_range _ _ (substring_length _ _ _) Eb).
  auto.
Qed.


(** Both ends of the range are reached. *)
Example hex_to_rgb_signed : hex_to_rgb "#-f+fFF" = Ok (-15, 15, 255).
Proof. reflexivity. Qed.

(** ** [blend_colors] in binary64 *)

Lemma nan_mul_r (x y : PrimFloat.float) : is_nan y -> is_nan (PrimFloat.mul x y).
Proof.
  unfold is_nan. intros E. rewrite FloatAxioms.mul_spec, E.
  unfold FloatAxioms.SF64mul. now destruct (FloatOps.Prim2SF x).
Qed.

Lemma nan_add_r (x y : PrimFloat.float) : is_nan y -> is_nan (PrimFloat.add x y).
Proof.
  unfold is_nan. intros E. rewrite FloatAxioms.add_spec, E.
  unfold FloatAxioms.SF64add. now destruct (FloatOps.Prim2SF x).
Qed.

Lemma blend_channel_nan (c1 c2 : Z) (ratio : PrimFloat.float) :
  is_nan ratio ->
  blend_channel c1 c2 ratio
  = Raise (mkExc ValueError "cannot convert float NaN to integer").
Proof.
  intros E. unfold blend_channel. cbn [to_int fadd fmul fsub Binary64.float_PyFloat].
  unfold Binary64.trunc.
  now rewrite (nan_add_r _ _ (nan_mul_r _ _ E)).
Qed.

(** Property X6.  [blend_colors] has an error condition of its own: on
    two well-formed colours and a ratio that is a NaN, every channel sum is
    a NaN and [int] raises [ValueError]. *)
Theorem blend_colors_nan_ratio (color1 color2 : string) (rgb1 rgb2 : RGB)
    (ratio : PrimFloat.float)
    (H1 : hex_to_rgb color1 = Ok rgb1) (H2 : hex_to_rgb color2 = Ok rgb2)
    (Hnan : is_nan ratio) :
  blend_colors color1 color2 ratio
  = Raise (mkExc ValueError "cannot convert float NaN to integer").
Proof.
  unfold blend_colors. rewrite H1, H2. cbn [ebind].
  destruct rgb1 as [[r1 g1] b1], rgb2 as [[r2 g2] b2].
  now rewrite (blend_channel_nan r1 r2 ratio Hnan).
Qed.

Lemma blend_colors_nan_ratio_witness :
  blend_colors "#0B0B1F" "#1A0B2E" PrimFloat.nan
  = Raise (mkExc ValueError "cannot convert float NaN to integer").
Proof.
  apply (blend_colors_nan_ratio "#0B0B1F" "#1A0B2E" (11, 11, 31) (26, 11, 46) PrimFloat.nan);
    reflexivity.
Defined.

Lemma In_channel_values (c : Z) : -15 <= c <= 255 -> In c channel_values.
Proof.
  intros Hc. unfold channel_values. apply in_map_iff. exists (c + 15).
  split; [lia|]. unfold range. apply in_map_iff. exists (Z.to_nat (c + 15)).
  split; [lia|]. apply in_seq. lia.
Qed.

Lemma is_zero_cases (x : PrimFloat.float) :
  is_zero x = true -> In x [PrimFloat.zero; PrimFloat.neg_zero].
Proof.
  unfold is_zero. intros E. rewrite <- (FloatAxioms.SF2Prim_Prim2SF x).
  destruct (FloatOps.Prim2SF x) as [[]| | |]; try discriminate.
  - right. left. reflexivity.
  - left. reflexivity.
Qed.

Lemma endpoints_exact (c : Z) : -15 <= c <= 255 -> endpoint_exact c = true.
Proof.
  intros Hc.
  assert (forallb endpoint_exact channel_values = true) as Hall
    by (vm_compute; reflexivity).
  rewrite forallb_forall in Hall. apply Hall, In_channel_values, Hc.
Qed.

Lemma returns_Ok (c : Exc Z) (z : Z) : returns c z = true -> c = Ok z.
Proof.
  destruct c as [v|e]; simpl; [|discriminate].
  intros E. apply Z.eqb_eq in E. now subst.
Qed.

Lemma blend_channel_endpoints (c1 c2 : Z) :
  -15 <= c1 <= 255 -> -15 <= c2 <= 255 ->
  blend_channel (F := PrimFloat.float) c1 c2 (of_int 0) = Ok c1
  /\ blend_channel (F := PrimFloat.float) c1 c2 (of_int 1) = Ok c2.
Proof.
  intros H1 H2.
  pose proof (endpoints_exact c1 H1) as E1. pose proof (endpoints_exact c2 H2) as E2.
  unfold endpoint_exact in E1, E2.
  apply andb_prop in E1 as [E1 S1]. apply andb_prop in E1 as [_ Z1].
  apply andb_prop in E2 as [E2 S2]. apply andb_prop in E2 as [Z2 _].
  rewrite forallb_forall in S1, S2.
  unfold blend_channel. split.
  - specialize (S1 _ (is_zero_cases _ Z2)). apply andb_prop in S1 as [S1 _].
    exact (returns_Ok _ _ S1).
  - specialize (S2 _ (is_zero_cases _ Z1)). apply andb_prop in S2 as [_ S2].
    exact (returns_Ok _ _ S2).
Qed.

(** Property X7.  In binary64 too the ends of a blend are exact: for
    every two colour strings that [hex_to_rgb] accepts, [blend_colors] at
    ratio 0 returns the first colour and at ratio 1 the second, channel for
    channel, with no rounding. *)
Theorem blend_colors_binary64_endpoints (color1 color2 : string) (rgb1 rgb2 : RGB)
    (H1 : hex_to_rgb color1 = Ok rgb1) (H2 : hex_to_rgb color2 = Ok rgb2) :
  blend_colors (F := PrimFloat.float) color1 color2 (of_int 0) = Ok rgb1
  /\ blend_colors (F := PrimFloat.float) color1 color2 (of_int 1) = Ok rgb2.
Proof.
  destruct rgb1 as [[r1 g1] b1], rgb2 as [[r2 g2] b2].
  destruct (hex_to_rgb_range _ _ _ _ H1) as (Hr1 & Hg1 & Hb1).
  destruct (hex_to_rgb_range _ _ _ _ H2) as (Hr2 & Hg2 & Hb2).
  destruct (blend_channel_endpoints r1 r2 Hr1 Hr2) as [R0 R1].
  destruct (blend_channel_endpoints g1 g2 Hg1 Hg2) as [G0 G1].
  destruct (blend_channel_endpoints b1 b2 Hb1 Hb2) as [B0 B1].
  unfold blend_colors. rewrite H1, H2. cbn [ebind].
  rewrite R0, G0, B0, R1, G1, B1. split; reflexivity.
Qed.

Lemma blend_colors_binary64_endpoints_witness :
  blend_colors (F := PrimFloat.float) "#FF1493" "39ff14" (of_int 0) = Ok (255, 20, 147)
  /\ blend_colors (F := PrimFloat.float) "#FF1493" "39ff14" (of_int 1) = Ok (57, 255, 20).
Proof.
  apply (blend_colors_binary64_endpoints "#FF1493" "39ff14" (255, 20, 147) (57, 255, 20));
    reflexivity.
Defined.

(** ** The gradient *)

Lemma In_range (n k : Z) : In k (range n) <-> 0 <= k < n.
Proof.
  unfold range. rewrite in_map_iff. split.
  - intros (i & <- & Hi). apply in_seq in Hi. lia.
  - intros Hk. exists (Z.to_nat k). split; [lia|]. apply in_seq. lia.
Qed.

(** Property X8.  In binary64, at every size of the two tables, row [y]
    of the gradient has red [11 + 15*y // size] and blue
    [31 + 15*y // size], which stay below the red 26 and the blue 46 of the
    palette's gradient colour: the last row stops short of it.  The green
    is 11, or 10 in rows below the first, where the float sum
    [11*(1-ratio) + 11*ratio] falls under 11 (see [gradient_rounding]). *)
Theorem gradient_color_binary64 (size y : Z)
    (Hin : In size table_sizes) (Hy : 0 <= y < size) :
  exists g,
    gradient_color (F := PrimFloat.float) size y
    = Ok (11 + 15 * y / size, g, 31 + 15 * y / size)
    /\ (g = 11 \/ (g = 10 /\ y <> 0))
    /\ 0 <= 15 * y / size <= 14.
Proof.
  assert (forallb gradient_closed_form table_sizes = true) as Hall
    by (vm_compute; reflexivity).
  rewrite forallb_forall in Hall. specialize (Hall size Hin).
  unfold gradient_closed_form in Hall. rewrite forallb_forall in Hall.
  specialize (Hall y (proj2 (In_range size y) Hy)).
  destruct (gradient_color size y) as [[[r g] b]|e]; [|discriminate].
  apply andb_prop in Hall as [Hall Hg]. apply andb_prop in Hall as [Hr Hb].
  apply Z.eqb_eq in Hr, Hb. subst r b. exists g. split; [reflexivity|]. split.
  - apply orb_prop in Hg as [Hg|Hg].
    + left. now apply Z.eqb_eq.
    + right. apply andb_prop in Hg as [Hg Hy0]. apply Z.eqb_eq in Hg.
      apply negb_true_iff, Z.eqb_neq in Hy0. now split.
  - split; [apply Z.div_pos; lia|].
    assert (15 * y / size < 15) by (apply Z.div_lt_upper_bound; lia). lia.
Qed.

Lemma gradient_color_binary64_witness :
  exists g,
    gradient_color (F := PrimFloat.float) 48 47 = Ok (11 + 15 * 47 / 48, g, 31 + 15 * 47 / 48)
    /\ (g = 11 \/ (g = 10 /\ 47 <> 0))
    /\ 0 <= 15 * 47 / 48 <= 14.
Proof. apply (gradient_color_binary64 48 47); [left; reflexivity|lia]. Defined.





(** ** The particle trail, at the geometry of the icon *)

Section TrailAny.
Context {F : Type} `{PyFloat F} `{Pillow F}.

Lemma particle_draws (size i : Z) (img : Image) :
  particle size (size / 2) (body_left size) (bird_size size) i img
  = Ok (if particle_drawn size i
        then draw_ellipse img (particle_box size i) primary_neon
        else img).
Proof.
  unfold particle_drawn.
  destruct (particle_x size i >? of_int 0)%py eqn:E;
    unfold particle_x in E; unfold particle; cbv zeta; rewrite E; [|reflexivity].
  rewrite palette_primary. reflexivity.
Qed.

Lemma particle_trail_fold (size : Z) (img : Image) :
  particle_trail size img
  = Ok (fold_left
          (fun im i => if particle_drawn size i
                       then draw_ellipse im (particle_box size i) primary_neon
                       else im)
          (range 5) img).
Proof.
  unfold particle_trail.
  apply (for_each_pure
           (fun im i => if particle_drawn size i
                        then draw_ellipse im (particle_box size i) primary_neon
                        else im)).
  intros i im. apply particle_draws.
Qed.

Lemma trail_size (size : Z) (turns : list Z) (img : Image) :
  im_size (fold_left
             (fun im i => if particle_drawn size i
                          then draw_ellipse im (particle_box size i) primary_neon
                          else im)
             turns img)
  = im_size img.
Proof.
  revert img. induction turns as [|i turns IH]; intros img; [reflexivity|].
  cbn [fold_left]. rewrite IH. now destruct (particle_drawn size i).
Qed.

Lemma trail_pixel (size : Z) (turns : list Z) (img : Image) (x y : Z) :
  getpixel (fold_left
              (fun im i => if particle_drawn size i
                           then draw_ellipse im (particle_box size i) primary_neon
                           else im)
              turns img) x y
  = if existsb (fun i => particle_drawn size i && ellipse_covers (particle_box size i) x y)
               turns
    then ink_rgb primary_neon
    else getpixel img x y.
Proof.
  revert img. induction turns as [|i turns IH]; intros img; [reflexivity|].
  cbn [fold_left existsb]. rewrite IH.
  destruct (existsb _ turns); [now rewrite orb_true_r|].
  rewrite orb_false_r.
  destruct (particle_drawn size i); [|reflexivity].
  unfold draw_ellipse, paint. cbn [getpixel andb]. reflexivity.
Qed.
End TrailAny.

Section TrailBinary64.
Context `{Pillow PrimFloat.float}.

(** Property X10.  In binary64, at every size of the two tables, the
    particle loop draws three dots and no more: turns 0, 1 and 2 draw their
    ellipse, and turns 3 and 4 find [particle_x <= 0] and draw nothing. *)
Theorem particle_trail_binary64 (size : Z) (img : Image) (Hin : In size table_sizes) :
  particle_trail size img
  = Ok (fold_left (fun im i => draw_ellipse im (particle_box size i) primary_neon)
                  [0; 1; 2] img)
  /\ forall i, In i (range 5) ->
       particle_drawn (F := PrimFloat.float) size i = (i <? 3).
Proof.
  assert (forallb draws_first_three table_sizes = true) as Hall
    by (vm_compute; reflexivity).
  rewrite forallb_forall in Hall. specialize (Hall size Hin).
  unfold draws_first_three in Hall. rewrite forallb_forall in Hall.
  assert (forall i, In i (range 5) ->
            particle_drawn (F := PrimFloat.float) size i = (i <? 3)) as Hx.
  { intros i Hi. apply Bool.eqb_prop, Hall, Hi. }
  split; [|exact Hx].
  rewrite particle_trail_fold. change (range 5) with [0; 1; 2; 3; 4] in *.
  cbn [fold_left].
  rewrite (Hx 0), (Hx 1), (Hx 2), (Hx 3), (Hx 4) by (simpl; auto 10).
  reflexivity.
Qed.
End TrailBinary64.

Section TrailExact.
Context `{Pillow Q}.

Lemma particle_x_exact (size i : Z) :
  (particle_x (F := Q) size i
   == inject_Z (size / 2) - inject_Z ((36 + 5 * i) * size) / 100)%Q.
Proof.
  unfold particle_x, body_left, bird_size.
  cbn [fsub fmul of_int decimal Q_PyFloat].
  rewrite !inject_Z_mult, inject_Z_plus, inject_Z_mult.
  change (6 # 10 ^ Pos.of_nat 1)%Q with (6 # 10)%Q.
  change (3 # 10 ^ Pos.of_nat 1)%Q with (3 # 10)%Q.
  change (5 # 10 ^ Pos.of_nat 2)%Q with (5 # 100)%Q.
  field.
Qed.

Lemma particle_not_drawn (size i : Z) :
  0 <= size -> 3 <= i -> particle_drawn (F := Q) size i = false.
Proof.
  intros Hs Hi.
  assert (particle_x (F := Q) size i <= 0)%Q as Hle.
  { rewrite particle_x_exact.
    rewrite <- (Qmake_Qdiv _ 100).
    unfold Qle, Qminus, Qplus, Qopp, inject_Z; simpl.
    pose proof (Z.mul_div_le size 2). nia. }
  apply Qle_bool_iff in Hle. unfold particle_drawn. cbn [fgt Q_PyFloat].
  change (of_int 0) with 0%Q. now rewrite Hle.
Qed.

(** Property X11.  In exact arithmetic, for every size that is not
    negative, the last two turns of the particle loop never draw: with
    [body_left] and [bird_size] as the icon has them, [particle_x] of turn
    [i] is [size // 2 - (0.36 + 0.05*i) * size], which is at most
    [-0.01 * size] from turn 3 on.  The trail has at most three dots. *)
Theorem particle_trail_last_two_skipped (size : Z) (img : Image) (Hs : 0 <= size) :
  particle_trail (F := Q) size img
  = for_each (range 3) (particle size (size / 2) (body_left size) (bird_size size)) img
  /\ particle_drawn (F := Q) size 3 = false
  /\ particle_drawn (F := Q) size 4 = false.
Proof.
  split; [|split; apply particle_not_drawn; lia].
  unfold particle_trail. change (range 5) with [0; 1; 2; 3; 4].
  change (range 3) with [0; 1; 2]. cbn [for_each].
  destruct (particle _ _ _ _ 0 img) as [i0|e]; [|reflexivity]. cbn [ebind].
  destruct (particle _ _ _ _ 1 i0) as [i1|e]; [|reflexivity]. cbn [ebind].
  destruct (particle _ _ _ _ 2 i1) as [i2|e]; [|reflexivity]. cbn [ebind].
  rewrite particle_draws, particle_not_drawn by lia. cbn [ebind].
  rewrite particle_draws, particle_not_drawn by lia. reflexivity.
Qed.
End TrailExact.

(** ** The boxes of the ellipses *)

Lemma Qle_shift (x a b : Q) : (0 <= a)%Q -> (0 <= b)%Q -> (x - a <= x + b)%Q.
Proof.
  intros Ha Hb. apply Qle_minus_iff.
  assert (x + b + - (x - a) == a + b)%Q as E by ring. rewrite E.
  rewrite <- (Qplus_0_l 0). now apply Qplus_le_compat.
Qed.

Lemma Qle_bool_shift (x a b : Q) :
  (0 <= a)%Q -> (0 <= b)%Q -> negb ((x - a)%Q >? (x + b)%Q)%py = true.
Proof.
  intros Ha Hb. cbn [fgt Q_PyFloat]. rewrite negb_involutive.
  apply Qle_bool_iff. now apply Qle_shift.
Qed.

Lemma max2_nonneg (v : Q) : (0 <= max2 v)%Q.
Proof.
  unfold max2. cbn [fgt Q_PyFloat of_int].
  destruct (Qle_bool v (inject_Z 2)) eqn:E; cbn [negb]; [discriminate|].
  destruct (Qlt_le_dec (inject_Z 2) v) as [Hlt|Hle].
  - apply Qlt_le_weak. eapply Qlt_trans; [|exact Hlt]. reflexivity.
  - apply Qle_bool_iff in Hle. congruence.
Qed.

Lemma bird_part_nonneg (size : Z) (m : Z) (k : nat) :
  0 <= size -> 0 <= m -> (0 <= bird_size (F := Q) size * decimal m k)%Q.
Proof.
  intros Hs Hm. unfold bird_size. cbn [fmul of_int decimal Q_PyFloat].
  apply Qmult_le_0_compat; [apply Qmult_le_0_compat|].
  - unfold Qle, inject_Z; simpl. lia.
  - unfold Qle; simpl. lia.
  - unfold Qle; simpl. lia.
Qed.

Lemma boxes_ordered_exact (size : Z) :
  0 <= size -> forallb box_ordered (ellipse_boxes (F := Q) size) = true.
Proof.
  intros Hs. unfold ellipse_boxes. cbn [forallb]. apply andb_true_intro. split.
  - unfold box_ordered, body_box, body_left, body_top, body_right, body_bottom.
    cbn [fsub fadd Q_PyFloat].
    apply andb_true_intro.
    split; apply Qle_bool_shift; apply bird_part_nonneg; lia.
  - apply forallb_forall. intros box Hbox. apply in_map_iff in Hbox as (i & <- & _).
    unfold box_ordered, particle_box, particle_radius. cbn [fsub fadd Q_PyFloat].
    apply andb_true_intro.
    split; apply Qle_bool_shift; apply max2_nonneg.
Qed.

Lemma boxes_ordered_binary64 (size : Z) :
  In size table_sizes ->
  forallb box_ordered (ellipse_boxes (F := PrimFloat.float) size) = true.
Proof.
  intros Hin.
  assert (forallb (fun s => forallb box_ordered (ellipse_boxes (F := PrimFloat.float) s))
                  table_sizes = true) as Hall by (vm_compute; reflexivity).
  rewrite forallb_forall in Hall. now apply Hall.
Qed.

(** Property X22.  Every ellipse [create_neon_bird_icon] draws, the body
    and each particle, has a box with [x0 <= x1] and [y0 <= y1], which is
    what Pillow asks of the box of an ellipse: in exact arithmetic for
    every size that is not negative, and in binary64 at every size of the
    two tables. *)
Theorem ellipse_boxes_are_ordered :
  (forall size, 0 <= size -> forallb box_ordered (ellipse_boxes (F := Q) size) = true)
  /\ (forall size, In size table_sizes ->
        forallb box_ordered (ellipse_boxes (F := PrimFloat.float) size) = true).
Proof. split; [exact boxes_ordered_exact|exact boxes_ordered_binary64]. Qed.

(** ** The pixels of the icon *)

Lemma for_each_establishes {A S : Type} (inv : S -> Prop) (Q : A -> S -> Prop)
    (xs : list A) (body : A -> S -> Exc S) :
  (forall x s, In x xs -> inv s ->
     exists s', body x s = Ok s' /\ inv s' /\ Q x s' /\ forall y, Q y s -> Q y s') ->
  forall s, inv s ->
    exists s', for_each xs body s = Ok s' /\ inv s'
               /\ (forall x, In x xs -> Q x s') /\ (forall y, Q y s -> Q y s').
Proof.
  induction xs as [|x rest IH]; intros Hbody s Hs; simpl.
  - exists s. repeat split; [exact Hs|contradiction|auto].
  - destruct (Hbody x s (or_introl eq_refl) Hs) as (s1 & E & I1 & Q1 & K1).
    rewrite E; simpl.
    destruct (IH (fun y t Hy => Hbody y t (or_intror Hy)) s1 I1)
      as (s2 & E2 & I2 & Q2 & K2).
    exists s2. split; [exact E2|]. split; [exact I2|]. split.
    + intros y [<-|Hy]; [apply K2, Q1|apply Q2, Hy].
    + intros y Hy. apply K2, K1, Hy.
Qed.

Lemma alpha_ink_rgb (c : RGB) : alpha (ink_rgb c) = 255.
Proof. now destruct c as [[r g] b]. Qed.

Lemma getpixel_step (drawn : bool) (covers : Z -> Z -> bool) (ink : RGBA)
    (img : Image) (x y : Z) :
  getpixel (if drawn then paint covers ink img else img) x y
  = if drawn && covers x y then ink else getpixel img x y.
Proof. now destruct drawn. Qed.

Section Pixels.
Context {F : Type} `{PyFloat F} `{Pillow F}.

Lemma create_neon_bird_icon_steps (size : Z) :
  create_neon_bird_icon size
  = (img <- canvas_before_glow size ;; apply_glow_effect img)%exc.
Proof.
  unfold create_neon_bird_icon, canvas_before_glow, particle_trail.
  destruct (Image_new _ _) as [img0|e]; [|reflexivity]. cbn [ebind].
  destruct (for_each _ _ img0) as [img1|e]; [|reflexivity]. cbn [ebind].
  rewrite palette_primary, palette_secondary, palette_accent. cbn [ebind].
  match goal with
  | |- context [for_each (range 5) ?body ?start] =>
      change (for_each (range 5) body start)
        with (for_each (range 5)
                (particle size (size / 2) (body_left size) (bird_size size))
                (draw_polygon
                   (draw_polygon (draw_ellipse img1 (body_box size) primary_neon)
                      (beak_points size) (255, 20, 147))
                   (tail_points size) (57, 255, 20)))
  end.
  destruct (for_each _ _ _) as [img2|e]; [|reflexivity]. cbn [ebind].
  now destruct (apply_glow_effect img2).
Qed.

Lemma alpha_layered_pixel (size x y : Z) : alpha (layered_pixel size x y) = 255.
Proof.
  unfold layered_pixel.
  repeat match goal with
         | |- context [if ?b then _ else _] => destruct b
         end; apply alpha_ink_rgb.
Qed.

Hypothesis line_rows : horizontal_line_fills_row.

(** The canvas, layer by layer. *)
Lemma canvas_layers (size : Z) :
  0 <= size -> renders size ->
  exists canvas,
    canvas_before_glow size = Ok canvas
    /\ im_size canvas = (size, size)
    /\ forall x y, 0 <= x < size -> 0 <= y < size ->
                   getpixel canvas x y = layered_pixel size x y.
Proof.
  intros Hs Hrows. unfold canvas_before_glow.
  rewrite Image_new_ok by assumption. cbn [ebind].
  destruct (for_each_establishes
              (fun im => im_size im = (size, size))
              (fun y im => forall x, 0 <= x < size ->
                             getpixel im x y = ink_rgb (row_color size y))
              (range size) (gradient_row size)) with
    (s := mkImage (size, size) (fun _ _ => ink_rgba (0, 0, 0, 0)))
    as (img1 & E1 & S1 & R1 & _); [|reflexivity|].
  { intros y im Hy Him. destruct (Hrows y Hy) as [c Ec].
    assert (row_color size y = c) as Hc by (unfold row_color; now rewrite Ec).
    unfold gradient_row. rewrite Ec. cbn [ebind].
    eexists. split; [reflexivity|]. split; [exact Him|]. split.
    - intros x Hx. unfold draw_line, paint; cbn [getpixel].
      now rewrite (line_rows size x y y Hx), Z.eqb_refl, Hc.
    - intros y' Hy' x Hx. unfold draw_line, paint; cbn [getpixel].
      rewrite (line_rows size x y' y Hx).
      destruct (Z.eqb_spec y' y) as [->|_]; [now rewrite Hc|apply Hy', Hx]. }
  rewrite E1. cbn [ebind].
  rewrite palette_primary, palette_secondary, palette_accent. cbn [ebind].
  rewrite particle_trail_fold.
  eexists. split; [reflexivity|]. split; [rewrite trail_size; exact S1|].
  intros x y Hx Hy. rewrite trail_pixel. unfold layered_pixel.
  unfold draw_polygon, draw_ellipse, paint. cbn [getpixel].
  now rewrite (R1 y (proj2 (In_range size y) Hy) x Hx).
Qed.

Hypothesis opaque_replaces : opaque_source_replaces.

Lemma icon_layers (size : Z) :
  0 <= size -> renders size ->
  exists canvas icon,
    canvas_before_glow size = Ok canvas
    /\ create_neon_bird_icon size = Ok icon
    /\ im_size icon = (size, size)
    /\ opaque icon
    /\ forall x y, 0 <= x < size -> 0 <= y < size ->
         getpixel icon x y = getpixel canvas x y
         /\ getpixel icon x y = layered_pixel size x y.
Proof.
  intros Hs Hrows.
  destruct (canvas_layers size Hs Hrows) as (canvas & Ec & Sc & Pc).
  assert (0 <= fst (im_size canvas)) as Hw by (rewrite Sc; simpl; lia).
  assert (0 <= snd (im_size canvas)) as Hh by (rewrite Sc; simpl; lia).
  pose proof (apply_glow_effect_ok canvas Hw Hh) as Ei.
  eexists canvas, _. split; [exact Ec|].
  split; [rewrite create_neon_bird_icon_steps, Ec; exact Ei|].
  split; [exact Sc|].
  assert (forall x y, 0 <= x < size -> 0 <= y < size ->
            alpha_over (alpha_over transparent (gaussian_blur 3 (Image_copy canvas) x y))
                       (getpixel canvas x y)
            = getpixel canvas x y) as Px.
  { intros x y Hx Hy. apply opaque_replaces.
    rewrite (Pc x y Hx Hy). apply alpha_layered_pixel. }
  split.
  - intros x y [Hx Hy]. cbn [im_size] in Hx, Hy. rewrite Sc in Hx, Hy.
    cbn [fst snd] in Hx, Hy. cbn [getpixel].
    rewrite (Px x y Hx Hy), (Pc x y Hx Hy). apply alpha_layered_pixel.
  - intros x y Hx Hy. cbn [getpixel]. rewrite (Px x y Hx Hy).
    split; [reflexivity|apply Pc; assumption].
Qed.

(** Property X12.  On an image whose pixels all have full alpha,
    [apply_glow_effect] changes no pixel: the blurred copy lies under an
    opaque original and nothing of it shows. *)
Theorem glow_is_hidden_under_opaque_image (img : Image)
    (Hw : 0 <= fst (im_size img)) (Hh : 0 <= snd (im_size img))
    (Hopaque : opaque img) :
  exists out,
    apply_glow_effect img = Ok out
    /\ im_size out = im_size img
    /\ forall x y, inside img x y -> getpixel out x y = getpixel img x y.
Proof.
  rewrite apply_glow_effect_ok by assumption.
  eexists. split; [reflexivity|]. split; [reflexivity|].
  intros x y Hin. cbn [getpixel]. apply opaque_replaces, Hopaque, Hin.
Qed.
End Pixels.

Section PixelsBinary64.
Context `{Pillow PrimFloat.float}.

(** Property X13.  In binary64, at every size of the two tables, the
    icon [create_neon_bird_icon] returns has no transparent pixel, and it
    is, pixel for pixel, the canvas as it was before the glow step: the
    gradient fills the whole canvas with opaque ink, so the glow of
    [apply_glow_effect] is not visible in any icon. *)
Theorem icon_is_opaque_canvas (size : Z)
    (Hline : horizontal_line_fills_row) (Hover : opaque_source_replaces)
    (Hin : In size table_sizes) :
  exists canvas icon,
    canvas_before_glow size = Ok canvas
    /\ create_neon_bird_icon size = Ok icon
    /\ im_size icon = (size, size)
    /\ opaque icon
    /\ forall x y, 0 <= x < size -> 0 <= y < size ->
                   getpixel icon x y = getpixel canvas x y.
Proof.
  destruct (icon_layers Hline Hover size (table_sizes_nonneg size Hin)
              (renders_binary64 size Hin)) as (canvas & icon & Ec & Ei & Si & Oi & Pi).
  exists canvas, icon. repeat split; try assumption.
  intros x y Hx Hy. apply (Pi x y Hx Hy).
Qed.

(** Property X14.  In binary64, at every size of the two tables, each
    pixel of the icon is decided by the drawing calls in the order of the
    script, the last call that covers the pixel winning: a particle that
    is drawn, else the tail, else the beak, else the body, else the colour
    of the pixel's row of the gradient; every time at full alpha. *)
Theorem icon_pixels_by_layer (size x y : Z)
    (Hline : horizontal_line_fills_row) (Hover : opaque_source_replaces)
    (Hin : In size table_sizes) (Hx : 0 <= x < size) (Hy : 0 <= y < size) :
  exists icon,
    create_neon_bird_icon size = Ok icon
    /\ getpixel icon x y = layered_pixel size x y
    /\ gradient_color size y = Ok (row_color size y).
Proof.
  destruct (icon_layers Hline Hover size (table_sizes_nonneg size Hin)
              (renders_binary64 size Hin)) as (canvas & icon & _ & Ei & _ & _ & Pi).
  exists icon. split; [exact Ei|]. split; [apply (Pi x y Hx Hy)|].
  destruct (renders_binary64 size Hin y (proj2 (In_range size y) Hy)) as [c Ec].
  unfold row_color. now rewrite Ec.
Qed.
End PixelsBinary64.

Section PixelsExact.
Context `{Pillow Q}.

End PixelsExact.

(** ** More on the runs *)

Lemma printed_app (a b : list Event) : printed (a ++ b) = printed a ++ printed b.
Proof. apply flat_map_app. Qed.

Lemma prefix_printed (a b : list Event) : a `prefix_of` b -> printed a `prefix_of` printed b.
Proof. intros [k ->]. exists (printed k). apply printed_app. Qed.




Lemma NoDup_split {A : Type} (l1 l2 : list A) (x : A) :
  NoDup (l1 ++ x :: l2) -> ~ In x l1.
Proof.
  intros Hnd Hin. apply NoDup_app in Hnd as (_ & Hd & _).
  apply (Hd x); [now apply list_elem_of_In|left].
Qed.

(** A run that got as far as printing [line] has done all the plan has
    before that line. *)
Lemma done_before_line (done pre post : list Event) (line : string) :
  done `prefix_of` pre ++ Printed line :: post ->
  ~ In line (printed pre) ->
  In line (printed done) ->
  pre `prefix_of` done.
Proof.
  intros Hp Hfresh Hin.
  destruct (prefix_weak_total done pre (pre ++ Printed line :: post) Hp) as [Hd|Hd];
    [now exists (Printed line :: post)| |exact Hd].
  exfalso. apply Hfresh. eapply prefix_In; [apply prefix_printed, Hd|exact Hin].
Qed.

Lemma progress_lines_distinct : NoDup progress_lines.
Proof. apply (bool_decide_unpack _). vm_compute. exact I. Qed.

Lemma paths_apart (path : string) : In path android_paths -> In path ios_paths -> False.
Proof.
  intros Ha Hi.
  assert (NoDup (android_paths ++ ios_paths)) as Hnd
    by (apply (bool_decide_unpack _); vm_compute; exact I).
  apply NoDup_app in Hnd as (_ & Hd & _).
  apply (Hd path); now apply list_elem_of_In.
Qed.

Section MoreRuns.
Context `{Pillow PrimFloat.float} {W : Type} `{OS W}.


Lemma main_saved_prefix (s : State W) :
  saved (effects main s) `prefix_of` saved all_plan.
Proof. rewrite main_saved. apply prefix_saved, all_outcome. Qed.



(** Property X17.  A run that has written any iOS icon has completed the
    Android generation before: [generate_android_icons] returned, and the
    fifteen Android files are the first fifteen files the run wrote.  So
    when a call of the Android generation is refused, no iOS icon is
    written. *)
Theorem ios_written_after_android (s : State W) (path : string) (img : Image)
    (Hios : In path ios_paths)
    (Hsaved : In (path, img) (saved (effects main s))) :
  fst (generate_android_icons (after_banner s)) = Ok tt
  /\ flat_map density_bitmaps density_buckets `prefix_of` saved (effects main s).
Proof.
  rewrite main_saved in *.
  destruct (all_outcome (after_banner s)) as [Hp _].
  assert (android_plan (F := PrimFloat.float) `prefix_of` effects generate_all (after_banner s))
    as Ha.
  { destruct (prefix_weak_total (effects generate_all (after_banner s))
                (android_plan (F := PrimFloat.float)) all_plan Hp) as [Hd|Hd];
      [now eexists| |exact Hd].
    exfalso. apply (paths_apart path); [|exact Hios].
    change android_paths with (map fst (saved (android_plan (F := PrimFloat.float)))).
    apply (in_map fst _ (path, img)).
    eapply prefix_In; [apply prefix_saved, Hd|exact Hsaved]. }
  split; [|exact (prefix_saved _ _ Ha)].
  destruct (android_outcome (after_banner s)) as [Hpa Hoa].
  assert (forall e, fst (generate_android_icons (after_banner s)) = Raise e ->
            effects generate_all (after_banner s)
            = effects generate_android_icons (after_banner s)) as Hstop.
  { intros e E. unfold effects, generate_all, bind.
    destruct (generate_android_icons (after_banner s)) as [[[]|e'] s1];
      [discriminate|reflexivity]. }
  destruct (fst (generate_android_icons (after_banner s))) as [[]|e]; [reflexivity|].
  exfalso. destruct Hoa as [_ Hne]. apply Hne.
  rewrite (Hstop e eq_refl) in Ha.
  apply (anti_symm prefix); assumption.
Qed.

Lemma printed_density_plans (l : list (string * Z)) :
  printed (flat_map (density_plan (F := PrimFloat.float)) l) = map android_line l.
Proof.
  induction l as [|[density size] l IH]; [reflexivity|].
  cbn [flat_map map]. rewrite printed_app, IH. reflexivity.
Qed.

Lemma printed_ios_plans (l : list (string * Z)) :
  printed (flat_map (ios_entry_plan (F := PrimFloat.float)) l) = map ios_line l.
Proof.
  induction l as [|[filename size] l IH]; [reflexivity|].
  cbn [flat_map map]. rewrite printed_app, IH. reflexivity.
Qed.

Lemma announced_files (s : State W) (pre post : list Event) (line : string)
    (files : list (string * Image)) :
  all_plan (F := PrimFloat.float) = pre ++ Printed line :: post ->
  ~ In line (printed pre) ->
  (forall file, In file files -> In file (saved pre)) ->
  In line (printed (effects generate_all (after_banner s))) ->
  forall file, In file files -> In file (saved (effects main s)).
Proof.
  intros Hplan Hfresh Hfiles Hin file Hf. rewrite main_saved.
  destruct (all_outcome (after_banner s)) as [Hp _]. rewrite Hplan in Hp.
  pose proof (done_before_line _ _ _ _ Hp Hfresh Hin) as Hpre.
  eapply prefix_In; [apply prefix_saved, Hpre|]. now apply Hfiles.
Qed.

Lemma android_announced (s : State W) (bucket : string * Z) :
  In bucket density_buckets ->
  In (android_line bucket) (printed (effects generate_all (after_banner s))) ->
  forall file, In file (density_bitmaps bucket) -> In file (saved (effects main s)).
Proof.
  intros Hb. apply in_split in Hb as (l1 & l2 & Hsplit).
  apply (announced_files s
           (flat_map density_plan l1 ++ density_files bucket)
           (flat_map density_plan l2 ++ [Printed ""] ++ ios_plan ++ success_lines)).
  - unfold all_plan, android_plan. rewrite Hsplit, flat_map_app. cbn [flat_map].
    unfold density_plan at 2. fold (android_line bucket).
    rewrite <- !app_assoc. reflexivity.
  - rewrite printed_app, printed_density_plans.
    replace (printed (density_files bucket)) with (@nil string)
      by now destruct bucket.
    rewrite app_nil_r.
    pose proof progress_lines_distinct as Hnd. unfold progress_lines in Hnd.
    rewrite Hsplit, map_app in Hnd. cbn [map] in Hnd.
    rewrite <- app_assoc in Hnd. exact (NoDup_split _ _ _ Hnd).
  - intros file Hf. rewrite saved_app. apply in_or_app. right.
    now destruct bucket.
Qed.

Lemma ios_announced (s : State W) (entry : string * Z) :
  In entry ios_sizes ->
  In (ios_line entry) (printed (effects generate_all (after_banner s))) ->
  In (ios_bitmap entry) (saved (effects main s)).
Proof.
  intros He Hin. apply in_split in He as (l1 & l2 & Hsplit).
  apply (announced_files s
           (android_plan ++ [Printed ""] ++ flat_map ios_entry_plan l1 ++ [ios_file entry])
           (flat_map ios_entry_plan l2 ++ success_lines)
           (ios_line entry) [ios_bitmap entry]); [| | |exact Hin|now left].
  - unfold all_plan, ios_plan. rewrite Hsplit, flat_map_app. cbn [flat_map].
    unfold ios_entry_plan at 2. fold (ios_line entry).
    rewrite <- !app_assoc. reflexivity.
  - rewrite !printed_app, printed_ios_plans.
    unfold android_plan. rewrite printed_density_plans.
    cbn [printed flat_map app]. rewrite app_nil_r.
    pose proof progress_lines_distinct as Hnd. unfold progress_lines in Hnd.
    rewrite Hsplit, map_app in Hnd. cbn [map] in Hnd.
    apply (NoDup_split _ (map ios_line l2)). rewrite <- app_assoc. exact Hnd.
  - intros file [<-|[]]. rewrite !saved_app.
    apply in_or_app. right. apply in_or_app. right. apply in_or_app. right.
    now left.
Qed.

(** The lines of the banner and of a failure are no progress lines: the
    ninth character tells them apart. *)
Lemma progress_line_of_generation (s : State W) (line : string) :
  In line progress_lines -> line <> "" ->
  In line (printed (effects main s)) ->
  In line (printed (effects generate_all (after_banner s))).
Proof.
  intros Hl Hne. rewrite main_effects, !printed_app.
  assert (String.get 8 line = Some "d"%char) as Hg.
  { assert (forallb (fun l => String.eqb l "" || bool_decide (String.get 8 l = Some "d"%char))
                    progress_lines = true) as Hall by (vm_compute; reflexivity).
    rewrite forallb_forall in Hall. specialize (Hall line Hl).
    apply orb_prop in Hall as [E|E].
    - apply String.eqb_eq in E. contradiction.
    - exact (bool_decide_eq_true_1 _ E). }
  intros Hin. apply in_app_or in Hin as [Hin|Hin].
  { exfalso. cbn in Hin. destruct Hin as [<-|[<-|[]]]; discriminate Hg. }
  apply in_app_or in Hin as [Hin|Hin]; [exact Hin|].
  exfalso. destruct (fst (generate_all (after_banner s))) as [[]|e]; [contradiction|].
  destruct (is_Exception e); [|contradiction].
  cbn in Hin. destruct Hin as [<-|[<-|[]]]; discriminate Hg.
Qed.

(** Property X18.  A progress line tells the truth: when a run of [main]
    has printed [Generated Android <density> icons (...)], the three files
    of that density were written in that run, with the bitmaps of the
    density; and when it has printed [Generated iOS icon <filename> (...)],
    that file was written. *)
Theorem progress_lines_follow_writes (s : State W) (line : string)
    (files : list (string * Image))
    (Hannounced : In (line, files) announcements)
    (Hprinted : In line (printed (effects main s))) :
  forall file, In file files -> In file (saved (effects main s)).
Proof.
  unfold announcements in Hannounced.
  apply in_app_or in Hannounced as [Ha|Hi].
  - apply in_map_iff in Ha as (bucket & [= <- <-] & Hb).
    apply (android_announced s bucket Hb).
    apply progress_line_of_generation; [| |exact Hprinted].
    + unfold progress_lines. apply in_or_app. left. now apply in_map.
    + destruct bucket. discriminate.
  - apply in_map_iff in Hi as (entry & [= <- <-] & He).
    intros file [<-|[]]. apply (ios_announced s entry He).
    apply progress_line_of_generation; [| |exact Hprinted].
    + unfold progress_lines. apply in_or_app. right. right. now apply in_map.
    + destruct entry. discriminate.
Qed.

Lemma saved_bitmaps (path : string) (img : Image) :
  In (path, img) (saved (all_plan (F := PrimFloat.float))) ->
  (exists size, In size table_sizes /\ img = rendered size)
  \/ (exists size, img = flat size background_rgba).
Proof.
  change (saved (all_plan (F := PrimFloat.float)))
    with (flat_map (density_bitmaps (F := PrimFloat.float)) density_buckets
          ++ map (ios_bitmap (F := PrimFloat.float)) ios_sizes).
  intros Hin. apply in_app_or in Hin as [Ha|Hi].
  - apply in_flat_map in Ha as ([density size] & Hb & Hf).
    pose proof (android_table (density, size) Hb) as Ht.
    destruct Hf as [[= _ <-]|[[= _ <-]|[[= _ <-]|[]]]];
      [left; now exists size|right; now exists size|left; now exists size].
  - apply in_map_iff in Hi as (entry & [= _ <-] & He).
    left. exists (snd entry). split; [exact (ios_table entry He)|reflexivity].
Qed.

(** Property X19.  No file that a run of [main] writes has a transparent
    pixel: the icons are opaque all over, the adaptive-icon foreground
    included, and so is the flat background. *)
Theorem written_files_are_opaque (s : State W) (path : string) (img : Image)
    (Hline : horizontal_line_fills_row) (Hover : opaque_source_replaces)
    (Hsaved : In (path, img) (saved (effects main s))) :
  opaque img.
Proof.
  assert (In (path, img) (saved (all_plan (F := PrimFloat.float)))) as Hin
    by (eapply prefix_In; [apply main_saved_prefix|exact Hsaved]).
  destruct (saved_bitmaps path img Hin) as [(size & Ht & ->)|(size & ->)].
  - destruct (icon_layers Hline Hover size (table_sizes_nonneg size Ht)
                (renders_binary64 size Ht)) as (canvas & icon & _ & E & _ & O & _).
    unfold rendered. now rewrite E.
  - intros x y _. reflexivity.
Qed.
Lemma saved_density_plans (l : list (string * Z)) :
  saved (flat_map (density_plan (F := PrimFloat.float)) l)
  = flat_map (density_bitmaps (F := PrimFloat.float)) l.
Proof.
  induction l as [|[density size] l IH]; [reflexivity|].
  cbn [flat_map]. rewrite saved_app, IH. reflexivity.
Qed.

Lemma saved_split (t : list Event) (path : string) (img : Image) :
  In (path, img) (saved t) -> exists t1 t2, t = t1 ++ Saved path img :: t2.
Proof.
  induction t as [|ev t IH]; [contradiction|].
  destruct ev as [dir|p i|line]; cbn [saved flat_map app].
  - intros Hin. destruct (IH Hin) as (t1 & t2 & ->). now exists (Makedirs dir :: t1), t2.
  - intros [[= -> ->]|Hin]; [now exists [], t|].
    destruct (IH Hin) as (t1 & t2 & ->). now exists (Saved p i :: t1), t2.
  - intros Hin. destruct (IH Hin) as (t1 & t2 & ->). now exists (Printed line :: t1), t2.
Qed.

(** Property X20.  No file goes into a [mipmap-<density>] directory
    before [os.makedirs] has returned for that directory in the same run:
    in the trace of a run that has written a file of a density, the
    creation of the directory of the density comes before the write. *)
Theorem directory_made_before_files (s : State W) (density : string) (size : Z)
    (path : string) (img : Image)
    (Hbucket : In (density, size) density_buckets)
    (Hfile : In (path, img) (density_bitmaps (density, size)))
    (Hsaved : In (path, img) (saved (effects main s))) :
  exists before after,
    effects main s = before ++ Saved path img :: after
    /\ In (mipmap density) (created before).
Proof.
  rewrite main_saved in Hsaved.
  apply in_split in Hbucket as (l1 & l2 & Hsplit).
  set (pre := flat_map (density_plan (F := PrimFloat.float)) l1
              ++ [Makedirs (mipmap density)]).
  assert (exists post, all_plan (F := PrimFloat.float) = pre ++ post) as [post Hplan].
  { unfold all_plan, android_plan, pre. rewrite Hsplit, flat_map_app. cbn [flat_map].
    cbn [density_plan density_files app fst].
    eexists. rewrite <- !app_assoc. cbn [app]. reflexivity. }
  assert (~ In path (map fst (saved pre))) as Hfresh.
  { unfold pre. rewrite saved_app, saved_density_plans. cbn [saved flat_map app].
    rewrite app_nil_r. intros Hin.
    pose proof (android_paths_distinct (H := H)) as Hnd.
    rewrite Hsplit, flat_map_app, map_app in Hnd. cbn [flat_map] in Hnd.
    rewrite map_app in Hnd.
    apply NoDup_app in Hnd as (_ & Hd & _).
    apply (Hd path); [now apply list_elem_of_In|].
    apply list_elem_of_In, in_or_app. left. apply (in_map fst _ _ Hfile). }
  destruct (all_outcome (after_banner s)) as [Hp _].
  assert (pre `prefix_of` effects generate_all (after_banner s)) as [k Hk].
  { destruct (prefix_weak_total (effects generate_all (after_banner s)) pre all_plan Hp)
      as [Hd|Hd]; [rewrite Hplan; now eexists| |exact Hd].
    exfalso. apply Hfresh. apply (in_map fst _ (path, img)).
    eapply prefix_In; [apply prefix_saved, Hd|exact Hsaved]. }
  rewrite Hk, saved_app in Hsaved. apply in_app_or in Hsaved as [Hin|Hin];
    [exfalso; apply Hfresh; apply (in_map fst _ _ Hin)|].
  destruct (saved_split k path img Hin) as (k1 & k2 & ->).
  rewrite main_effects, Hk.
  eexists (banner ++ pre ++ k1), _. split.
  - rewrite <- !app_assoc. cbn [app]. reflexivity.
  - rewrite !created_app. apply in_or_app. right. apply in_or_app. left.
    unfold pre. rewrite created_app. apply in_or_app. right. now left.
Qed.
End MoreRuns.

(** ** The script on the reference implementations

    Closed runs: the software rasteriser, the in-memory file system and
    binary64 in the runs of the generator. *)

Module Witnesses.
Import Reference.

#[local] Existing Instance pillow_Q.
#[local] Existing Instance pillow_binary64.
#[local] Existing Instance memfs.

(** From an empty file system the Android generation goes through. *)
Lemma android_run_completes :
  fst (generate_android_icons (F := PrimFloat.float) (start empty_fs)) = Ok tt.
Proof. vm_compute. reflexivity. Qed.

(** In a checkout, that is where the asset catalogue exists, the whole
    run goes through, and so does a second run after it. *)
Lemma checkout_run_completes : completes (F := PrimFloat.float) (start checkout).
Proof. vm_compute. reflexivity. Qed.



Lemma apply_glow_effect_composites_witness :
  exists base under result,
    let duplicate := Image_copy (flat 4 background_rgba) in
    let blurred := filter_GaussianBlur (F := PrimFloat.float) 3 duplicate in
    duplicate = flat 4 background_rgba
    /\ Image_new (4, 4) transparent = Ok base
    /\ (forall x y, getpixel base x y = transparent)
    /\ alpha_composite (F := PrimFloat.float) base blurred = Ok under
    /\ alpha_composite (F := PrimFloat.float) under (flat 4 background_rgba) = Ok result
    /\ apply_glow_effect (F := PrimFloat.float) (flat 4 background_rgba) = Ok result
    /\ im_size result = (4, 4)
    /\ forall x y,
         getpixel result x y
         = alpha_over (F := PrimFloat.float)
             (alpha_over (F := PrimFloat.float) transparent
                (gaussian_blur (F := PrimFloat.float) 3 (flat 4 background_rgba) x y))
             background_rgba.
Proof.
  apply (apply_glow_effect_composites (F := PrimFloat.float) (flat 4 background_rgba));
    simpl; lia.
Defined.


Lemma background_is_flat_fill_witness :
  (fill <- palette "background" ;; Image_new (48, 48) (ink_rgb fill))%exc
  = Ok (flat 48 background_rgba)
  /\ flat 48 background_rgba = flat 48 background_rgba
  /\ im_size (flat 48 background_rgba) = (48, 48)
  /\ forall x y, getpixel (flat 48 background_rgba) x y = background_rgba.
Proof.
  apply (background_is_flat_fill (H := pillow_binary64) (start empty_fs) "mdpi" 48
           (flat 48 background_rgba)).
  - left. reflexivity.
  - rewrite (android_completed_saved _ android_run_completes).
    right. left. reflexivity.
Defined.

Lemma foreground_equals_launcher_witness :
  rendered (F := PrimFloat.float) 48 = rendered (F := PrimFloat.float) 48
  /\ create_neon_bird_icon (F := PrimFloat.float) 48
     = Ok (rendered (F := PrimFloat.float) 48)
  /\ create_neon_bird_icon (F := PrimFloat.float) 48
     = Ok (rendered (F := PrimFloat.float) 48).
Proof.
  apply (foreground_equals_launcher (start empty_fs) "mdpi" 48
           (rendered (F := PrimFloat.float) 48) (rendered (F := PrimFloat.float) 48)).
  - left. reflexivity.
  - rewrite (android_completed_saved _ android_run_completes).
    left. reflexivity.
  - rewrite (android_completed_saved _ android_run_completes).
    right. right. left. reflexivity.
Defined.


Lemma create_neon_bird_icon_binary64_witness :
  exists img,
    create_neon_bird_icon (F := PrimFloat.float) 1024 = Ok img
    /\ im_size img = (1024, 1024).
Proof.
  apply (create_neon_bird_icon_binary64 1024).
  vm_compute. repeat (first [left; reflexivity | right]).
Defined.

(** The software rasteriser has the two facts of Pillow that the
    properties of the pixels rest on. *)
Lemma reference_line_fills_row {F : Type} `{PyFloat F} :
  @horizontal_line_fills_row F (pillow (F := F)).
Proof.
  intros size x y row Hx. cbn [line_covers pillow].
  unfold line, segments, existsb, on_segment, between.
  rewrite orb_false_r.
  destruct (Z.eqb_spec y row) as [->|Hne].
  - repeat (apply andb_true_intro; split);
      first [apply Z.leb_le; lia | apply Z.eqb_eq; lia].
  - destruct (Z.leb_spec (Z.min row row) y), (Z.leb_spec y (Z.max row row));
      try lia; cbn [andb]; now rewrite ?andb_false_r.
Qed.

Lemma reference_over_opaque {F : Type} `{PyFloat F} :
  @opaque_source_replaces F (pillow (F := F)).
Proof.
  intros [[[dr dg] db] da] [[[sr sg] sb] sa] Ha. cbn [alpha snd] in Ha. subst sa.
  cbn [alpha_over pillow]. unfold over.
  rewrite Z.sub_diag, Z.mul_0_r. cbn [Z.div Z.div_eucl Z.add Z.eqb].
  rewrite !Z.mul_0_r, !Z.add_0_r, !Z.div_mul by lia. reflexivity.
Qed.

Lemma checkout_effects :
  effects (main (F := PrimFloat.float)) (start checkout)
  = banner ++ all_plan (F := PrimFloat.float).
Proof. exact (proj2 (main_completes (start checkout) checkout_run_completes)). Qed.

Lemma particle_trail_binary64_witness :
  particle_trail (F := PrimFloat.float) 48 (flat 48 background_rgba)
  = Ok (fold_left
          (fun im i => draw_ellipse im (particle_box (F := PrimFloat.float) 48 i) primary_neon)
          [0; 1; 2] (flat 48 background_rgba))
  /\ forall i, In i (range 5) ->
       particle_drawn (F := PrimFloat.float) 48 i = (i <? 3).
Proof.
  apply (particle_trail_binary64 (H := pillow_binary64) 48 (flat 48 background_rgba)).
  left. reflexivity.
Defined.

Lemma particle_trail_last_two_skipped_witness :
  particle_trail (F := Q) 48 (flat 48 background_rgba)
  = for_each (range 3) (particle (F := Q) 48 (48 / 2) (body_left 48) (bird_size 48))
             (flat 48 background_rgba)
  /\ particle_drawn (F := Q) 48 3 = false
  /\ particle_drawn (F := Q) 48 4 = false.
Proof.
  apply (particle_trail_last_two_skipped (H := pillow_Q) 48 (flat 48 background_rgba)).
  lia.
Defined.

Lemma glow_is_hidden_under_opaque_image_witness :
  exists out,
    apply_glow_effect (F := PrimFloat.float) (flat 4 background_rgba) = Ok out
    /\ im_size out = (4, 4)
    /\ forall x y, inside (flat 4 background_rgba) x y ->
                   getpixel out x y = background_rgba.
Proof.
  apply (glow_is_hidden_under_opaque_image (F := PrimFloat.float) (H0 := pillow_binary64)
           reference_over_opaque (flat 4 background_rgba)).
  - simpl. lia.
  - simpl. lia.
  - intros x y _. reflexivity.
Defined.

Lemma icon_is_opaque_canvas_witness :
  exists canvas icon,
    canvas_before_glow (F := PrimFloat.float) 48 = Ok canvas
    /\ create_neon_bird_icon (F := PrimFloat.float) 48 = Ok icon
    /\ im_size icon = (48, 48)
    /\ opaque icon
    /\ forall x y, 0 <= x < 48 -> 0 <= y < 48 ->
                   getpixel icon x y = getpixel canvas x y.
Proof.
  apply (icon_is_opaque_canvas (H := pillow_binary64) 48).
  - exact reference_line_fills_row.
  - exact reference_over_opaque.
  - left. reflexivity.
Defined.

(** The pixel in the middle of the 48 pixel icon lies in the body. *)
Lemma icon_pixels_by_layer_witness :
  exists icon,
    create_neon_bird_icon (F := PrimFloat.float) 48 = Ok icon
    /\ getpixel icon 24 24 = layered_pixel (F := PrimFloat.float) 48 24 24
    /\ gradient_color (F := PrimFloat.float) 48 24
       = Ok (row_color (F := PrimFloat.float) 48 24).
Proof.
  apply (icon_pixels_by_layer (H := pillow_binary64) 48 24 24).
  - exact reference_line_fills_row.
  - exact reference_over_opaque.
  - left. reflexivity.
  - lia.
  - lia.
Defined.

Example middle_pixel_is_body :
  layered_pixel (F := PrimFloat.float) 48 24 24 = (0, 255, 255, 255).
Proof. vm_compute. reflexivity. Qed.

Example corner_pixel_is_background :
  layered_pixel (F := PrimFloat.float) 48 0 0 = background_rgba.
Proof. vm_compute. reflexivity. Qed.

Lemma ios_written_after_android_witness :
  fst (generate_android_icons (F := PrimFloat.float) (after_banner (start checkout))) = Ok tt
  /\ flat_map (density_bitmaps (F := PrimFloat.float)) density_buckets
     `prefix_of` saved (effects (main (F := PrimFloat.float)) (start checkout)).
Proof.
  apply (ios_written_after_android (H := pillow_binary64) (start checkout)
           (ios_base_path +:+ "/Icon-App-20x20@1x.png") (rendered (F := PrimFloat.float) 20)).
  - left. reflexivity.
  - rewrite checkout_effects.
    change (saved (banner ++ all_plan (F := PrimFloat.float)))
      with (flat_map (density_bitmaps (F := PrimFloat.float)) density_buckets
            ++ map (ios_bitmap (F := PrimFloat.float)) ios_sizes).
    apply in_or_app. right. left. reflexivity.
Defined.

Lemma progress_lines_follow_writes_witness :
  In (mipmap "mdpi" +:+ "/ic_launcher_foreground.png", rendered (F := PrimFloat.float) 48)
     (saved (effects (main (F := PrimFloat.float)) (start checkout))).
Proof.
  apply (progress_lines_follow_writes (H := pillow_binary64) (start checkout)
           (android_line ("mdpi", 48))
           (density_bitmaps (F := PrimFloat.float) ("mdpi", 48))).
  - left. reflexivity.
  - rewrite checkout_effects. right. right. left. reflexivity.
  - right. right. left. reflexivity.
Defined.

Lemma written_files_are_opaque_witness : opaque (rendered (F := PrimFloat.float) 48).
Proof.
  apply (written_files_are_opaque (H := pillow_binary64) (start checkout)
           (mipmap "mdpi" +:+ "/ic_launcher_foreground.png")
           (rendered (F := PrimFloat.float) 48)).
  - exact reference_line_fills_row.
  - exact reference_over_opaque.
  - rewrite checkout_effects. right. right. left. reflexivity.
Defined.

Lemma directory_made_before_files_witness :
  exists before after,
    effects (main (F := PrimFloat.float)) (start checkout)
    = before ++ Saved (mipmap "mdpi" +:+ "/ic_launcher.png")
                      (rendered (F := PrimFloat.float) 48) :: after
    /\ In (mipmap "mdpi") (created before).
Proof.
  apply (directory_made_before_files (H := pillow_binary64) (start checkout) "mdpi" 48
           (mipmap "mdpi" +:+ "/ic_launcher.png") (rendered (F := PrimFloat.float) 48)).
  - left. reflexivity.
  - left. reflexivity.
  - rewrite checkout_effects. left. reflexivity.
Defined.

End Witnesses.
